(** * Rule-based skills taxonomy (generate_taxonomy_direct.py)

    A shallow embedding of the taxonomy pipeline of
    [generate_taxonomy_direct.py]: the keyword classifier, the Bloom-level
    classifier, the extractor loop, the consolidator and the taxonomy
    builder, followed by the properties the specification states about them.
    The result [main] builds, the skill counts of analysis.py that read it
    and the collection loop of scraper.py that feeds it are embedded as
    well, with further properties of the code at the end.

    Modelling conventions.
    - A Python [str] is a [string]; the character with code [n] stands for
      the code point [n], so the development covers text whose code points
      are below 256.  [str.lower] and the whitespace test of [str.strip] are
      the restrictions of Python's to that range.
    - A dict that is used as a record (a skill, a module) is a [Record] whose
      fields are [option]s: [None] is an absent key, and [d.get(k, v)] is
      [default v (k d)].
    - A [set] of strings is a [gset string]; [list(s)] is [elements s], whose
      order is as arbitrary as the iteration order of a Python set.
    - A [defaultdict] that is later iterated is an association list in
      insertion order, read and updated through [touch].
    - A call that can raise returns an [option]: [max] of an empty
      argument, and with it the consolidator and the builder.  [split]
      never returns an empty list, so its result is kept as a first piece
      and the rest, and [[0]] on it cannot fail.
    - Integers are [Z]; a length is a [nat]. *)

From Stdlib Require Import Ascii String ZArith.
From stdpp Require Import base option list strings gmap sorting.

Open Scope string_scope.
Open Scope Z_scope.
Open Scope list_scope.

(** ** Strings *)

Module Str.

(** [c.lower()] for one character of the first 256 code points: the upper
    case letters are A-Z and U+00C0-U+00DE without the multiplication sign
    U+00D7, each 32 below its lower case letter. *)
Definition lower_char (c : ascii) : ascii :=
  let n := N_of_ascii c in
  if ((65 <=? n) && (n <=? 90)
      || (192 <=? n) && (n <=? 222) && negb (n =? 215))%N
  then ascii_of_N (n + 32)
  else c.

(** [s.lower()] *)
Fixpoint lower (s : string) : string :=
  match s with
  | EmptyString => EmptyString
  | String c s' => String (lower_char c) (lower s')
  end.

(** [c.isspace()] below code point 256. *)
Definition isspace (c : ascii) : bool :=
  let n := N_of_ascii c in
  ((9 <=? n) && (n <=? 13) || (28 <=? n) && (n <=? 32)
   || (n =? 133) || (n =? 160))%N.

Fixpoint lstrip (s : string) : string :=
  match s with
  | EmptyString => EmptyString
  | String c s' => if isspace c then lstrip s' else s
  end.

Fixpoint rstrip (s : string) : string :=
  match s with
  | EmptyString => EmptyString
  | String c s' =>
      match rstrip s' with
      | EmptyString => if isspace c then EmptyString else String c EmptyString
      | r => String c r
      end
  end.

(** [s.strip()] *)
Definition strip (s : string) : string := rstrip (lstrip s).

(** Every character of [s] is whitespace. *)
Fixpoint all_space (s : string) : bool :=
  match s with
  | EmptyString => true
  | String c s' => isspace c && all_space s'
  end.

(** [sub in text] *)
Fixpoint contains (sub text : string) : bool :=
  String.prefix sub text
  || match text with
     | EmptyString => false
     | String _ text' => contains sub text'
     end.

(** [s[:n]] for a literal [n >= 0] *)
Fixpoint take (n : nat) (s : string) : string :=
  match n, s with
  | S n', String c s' => String c (take n' s')
  | _, _ => EmptyString
  end.

(** [s.split(sep)] for a one-character separator.  The list Python
    returns is never empty, so it is kept as its first piece and the list
    of the pieces after it. *)
Fixpoint split (sep : ascii) (s : string) : string * list string :=
  match s with
  | EmptyString => (EmptyString, [])
  | String c s' =>
      let '(h, t) := split sep s' in
      if Ascii.eqb c sep then (EmptyString, h :: t) else (String c h, t)
  end.

(** [pieces[0]] *)
Definition item0 (pieces : string * list string) : string := fst pieces.

End Str.

(** [any(w in text for w in words)] *)
Definition any_in (words : list string) (text : string) : bool :=
  existsb (fun w => Str.contains w text) words.

(** ** Skill records *)

(** The dict the classifier builds for one fired rule. *)
Record Skill := mkSkill {
  skill_name : option string;
  description : option string;
  category : option string;
  skill_type : option string;
  blooms_level : option string;
  keywords : option (list string);
  module : option string
}.

(** ** Classifier *)

Definition determine_blooms_level (text : string) : string :=
  if any_in ["define"; "list"; "name"; "identify"; "recall"; "recognize"] text
  then "Remember"
  else if any_in ["understand"; "comprehend"; "explain"; "describe";
                  "summarize"; "interpret"; "classify"] text
  then "Understand"
  else if any_in ["apply"; "use"; "solve"; "implement"; "execute";
                  "carry out"; "write"; "run"] text
  then "Apply"
  else if any_in ["analyze"; "examine"; "compare"; "contrast";
                  "differentiate"; "organize"; "test"; "debug"] text
  then "Analyze"
  else if any_in ["evaluate"; "assess"; "judge"; "critique"; "justify";
                  "argue"; "defend"] text
  then "Evaluate"
  else if any_in ["create"; "design"; "develop"; "construct"; "build";
                  "formulate"; "generate"; "plan"] text
  then "Create"
  else "Apply".

(** [first_part] is [outcome.split(',')[0].split(';')[0]]. *)
Definition extract_main_skill (outcome context : string) : string :=
  let outcome := Str.strip outcome in
  if (String.length outcome <? 60)%nat then outcome
  else
    let first_part :=
      Str.item0 (Str.split ";" (Str.item0 (Str.split "," outcome))) in
    if (String.length first_part <? 80)%nat then first_part
    else context +:+ " - " +:+ Str.take 40 outcome +:+ "...".

Definition extract_keywords (text : string) (candidates : list string)
  : list string :=
  fold_left (fun keywords keyword =>
               if Str.contains keyword text then keywords ++ [keyword]
               else keywords)
            candidates [].

Definition extract_skills_from_outcome
  (outcome : string) (level : Z) (module_code : string) : list Skill :=
  let outcome_lower := Str.lower outcome in
  let skills : list Skill := [] in
  let blooms_level := determine_blooms_level outcome_lower in
  let skills :=
    if any_in ["program"; "code"; "compile"; "debug"; "algorithm";
               "data structure"; "function"; "method"; "procedure"]
              outcome_lower
    then skills ++ [ {|
      skill_name := Some (extract_main_skill outcome "Programming");
      description := Some (Str.take 100 outcome);
      category := Some "Technical";
      skill_type := Some "Programming";
      blooms_level := Some blooms_level;
      keywords := Some (extract_keywords outcome_lower
                          ["program"; "code"; "function"; "algorithm"]);
      module := Some module_code |} ]
    else skills in
  let skills :=
    if any_in ["design"; "develop"; "create"; "build"; "construct"]
              outcome_lower
    then skills ++ [ {|
      skill_name := Some (extract_main_skill outcome "Design & Development");
      description := Some (Str.take 100 outcome);
      category := Some "Technical";
      skill_type := Some "Software Design";
      blooms_level := Some blooms_level;
      keywords := Some (extract_keywords outcome_lower
                          ["design"; "develop"; "architecture"]);
      module := Some module_code |} ]
    else skills in
  let skills :=
    if any_in ["understand"; "comprehend"; "aware"; "familiar"; "describe";
               "explain"] outcome_lower
    then skills ++ [ {|
      skill_name :=
        Some (extract_main_skill outcome "Conceptual Understanding");
      description := Some (Str.take 100 outcome);
      category := Some "Cognitive";
      skill_type := Some "Comprehension";
      blooms_level := Some blooms_level;
      keywords := Some (extract_keywords outcome_lower
                          ["understand"; "knowledge"; "theory"]);
      module := Some module_code |} ]
    else skills in
  let skills :=
    if any_in ["test"; "debug"; "evaluate"; "analyze"; "assess"] outcome_lower
    then skills ++ [ {|
      skill_name := Some (extract_main_skill outcome "Analysis & Testing");
      description := Some (Str.take 100 outcome);
      category := Some "Technical";
      skill_type := Some "Testing & Debugging";
      blooms_level := Some blooms_level;
      keywords := Some (extract_keywords outcome_lower
                          ["test"; "debug"; "analyze"]);
      module := Some module_code |} ]
    else skills in
  let skills :=
    if any_in ["architecture"; "organization"; "system"; "structure"]
              outcome_lower
    then skills ++ [ {|
      skill_name := Some (extract_main_skill outcome "Systems & Architecture");
      description := Some (Str.take 100 outcome);
      category := Some "Domain-Specific";
      skill_type := Some "Computer Architecture";
      blooms_level := Some blooms_level;
      keywords := Some (extract_keywords outcome_lower
                          ["architecture"; "system"; "hardware"]);
      module := Some module_code |} ]
    else skills in
  let skills :=
    if any_in ["logic"; "proof"; "mathematical"; "formal"; "automata"]
              outcome_lower
    then skills ++ [ {|
      skill_name := Some (extract_main_skill outcome "Theoretical Foundations");
      description := Some (Str.take 100 outcome);
      category := Some "Domain-Specific";
      skill_type := Some "Theory & Mathematics";
      blooms_level := Some blooms_level;
      keywords := Some (extract_keywords outcome_lower
                          ["logic"; "proof"; "mathematical"]);
      module := Some module_code |} ]
    else skills in
  let skills :=
    if any_in ["problem"; "solve"; "solution"] outcome_lower
    then skills ++ [ {|
      skill_name := Some (extract_main_skill outcome "Problem Solving");
      description := Some (Str.take 100 outcome);
      category := Some "Cognitive";
      skill_type := Some "Problem-Solving";
      blooms_level := Some blooms_level;
      keywords := Some (extract_keywords outcome_lower
                          ["problem"; "solve"; "solution"]);
      module := Some module_code |} ]
    else skills in
  let skills :=
    if any_in ["data"; "information"; "database"] outcome_lower
    then skills ++ [ {|
      skill_name := Some (extract_main_skill outcome "Data Management");
      description := Some (Str.take 100 outcome);
      category := Some "Technical";
      skill_type := Some "Data Science";
      blooms_level := Some blooms_level;
      keywords := Some (extract_keywords outcome_lower
                          ["data"; "information"; "analysis"]);
      module := Some module_code |} ]
    else skills in
  let skills :=
    if bool_decide (skills = [])
    then skills ++ [ {|
      skill_name := Some (Str.take 50 outcome);
      description := Some (Str.take 100 outcome);
      category := Some "General";
      skill_type := Some "General Competency";
      blooms_level := Some blooms_level;
      keywords := Some [];
      module := Some module_code |} ]
    else skills in
  skills.

(** ** Extractor *)

(** A module record as loaded from the scraped data. *)
Record ModuleData := mkModule {
  code : option string;
  title : option string;
  level : option Z;
  learning_outcomes : option (list string)
}.

(** [module.copy()] with the key ['extracted_skills'] added. *)
Record EnrichedModule := mkEnriched {
  base : ModuleData;
  extracted_skills : list Skill
}.

Record Analysis := mkAnalysis {
  modules : list EnrichedModule;
  all_skills : list Skill;
  total_modules : nat;
  total_skills : nat
}.

(** The progress lines the function prints are not part of its result and
    are left out. *)
Definition analyze_learning_outcomes_direct (modules : list ModuleData)
  : Analysis :=
  let '(all_extracted_skills, enriched_modules) :=
    fold_left
      (fun '(all_extracted_skills, enriched_modules) module =>
         let code := default "Unknown" (code module) in
         let title := default "Unknown" (title module) in
         let level := default 0 (level module) in
         let outcomes := default [] (learning_outcomes module) in
         if bool_decide (outcomes = [])
         then (all_extracted_skills, enriched_modules)
         else
           let '(module_skills, all_extracted_skills) :=
             fold_left
               (fun '(module_skills, all_extracted_skills) outcome =>
                  let skills :=
                    extract_skills_from_outcome outcome level code in
                  (module_skills ++ skills, all_extracted_skills ++ skills))
               outcomes ([], all_extracted_skills) in
           let module_copy :=
             {| base := module; extracted_skills := module_skills |} in
           (all_extracted_skills, enriched_modules ++ [module_copy]))
      modules ([], []) in
  {| modules := enriched_modules;
     all_skills := all_extracted_skills;
     total_modules := length enriched_modules;
     total_skills := length all_extracted_skills |}.

(** ** Insertion-ordered defaultdict *)

(** [d[k]] on a [defaultdict] followed by an update [f] of the value found:
    a key that is new is added at the end with [f] of the default. *)
Fixpoint touch {V : Type} (dflt : V) (f : V -> V) (k : string)
  (d : list (string * V)) : list (string * V) :=
  match d with
  | [] => [(k, f dflt)]
  | (k', v) :: d' =>
      if decide (k' = k) then (k', f v) :: d'
      else (k', v) :: touch dflt f k d'
  end.

(** ** Consolidator *)

Record Consolidated := mkConsolidated {
  cs_name : string;
  proficiency_levels : list string;
  appears_in_modules : list string;
  bloom_levels : list string
}.

(** The value [skill_map] holds per name. *)
Record Entry := mkEntry {
  e_modules : gset string;
  e_blooms : list string;
  e_descriptions : list string
}.

Definition new_entry : Entry :=
  {| e_modules := ∅; e_blooms := []; e_descriptions := [] |}.

(** [max(xs)]: [None] is the ValueError of an empty argument. *)
Definition py_max (xs : list Z) : option Z :=
  match xs with
  | [] => None
  | x :: xs' => Some (fold_left Z.max xs' x)
  end.

(** [sorted(list(s))] on a set of strings. *)
Definition sorted (s : gset string) : list string :=
  merge_sort String.le (elements s).

Definition blooms_hierarchy : gmap string Z :=
  list_to_map [("Remember", 1); ("Understand", 2); ("Apply", 3);
               ("Analyze", 4); ("Evaluate", 5); ("Create", 6)].

Definition determine_proficiency_levels (blooms_levels : gset string)
  : option (list string) :=
  max_level ←
    py_max ((fun b => default 3 (blooms_hierarchy !! b))
              <$> elements blooms_levels);
  Some (if max_level <=? 2 then ["Beginner"]
        else if max_level <=? 4 then ["Beginner"; "Intermediate"]
        else ["Beginner"; "Intermediate"; "Advanced"]).

Definition consolidate_similar_skills (skills : list Skill)
  : option (list Consolidated) :=
  let skill_map :=
    fold_left
      (fun skill_map skill =>
         let name := default "Unknown" (skill_name skill) in
         let module := default "Unknown" (module skill) in
         let blooms := default "Unknown" (blooms_level skill) in
         let desc := default "" (description skill) in
         let skill_map :=
           touch new_entry
             (fun e => {| e_modules := e_modules e ∪ {[ module ]};
                          e_blooms := e_blooms e;
                          e_descriptions := e_descriptions e |})
             name skill_map in
         let skill_map :=
           touch new_entry
             (fun e => {| e_modules := e_modules e;
                          e_blooms := e_blooms e ++ [blooms];
                          e_descriptions := e_descriptions e |})
             name skill_map in
         let skill_map :=
           touch new_entry
             (fun e => {| e_modules := e_modules e;
                          e_blooms := e_blooms e;
                          e_descriptions := e_descriptions e ++ [desc] |})
             name skill_map in
         skill_map)
      skills [] in
  mapM (fun '(name, data) =>
          let blooms_set : gset string := list_to_set (e_blooms data) in
          proficiency ← determine_proficiency_levels blooms_set;
          Some {| cs_name := name;
                  proficiency_levels := proficiency;
                  appears_in_modules := sorted (e_modules data);
                  bloom_levels := sorted blooms_set |})
       skill_map.

(** ** Taxonomy builder *)

Record SubCategory := mkSubCategory {
  sub_name : string;
  sub_description : string;
  skills : list Consolidated
}.

Record Domain := mkDomain {
  dom_name : string;
  dom_description : string;
  sub_categories : list SubCategory
}.

Record Taxonomy := mkTaxonomy { domains : list Domain }.

Definition build_taxonomy_structure (all_skills : list Skill)
  : option Taxonomy :=
  let taxonomy_tree : list (string * list (string * list Skill)) :=
    fold_left
      (fun taxonomy_tree skill =>
         let category := default "General" (category skill) in
         let skill_type := default "General" (skill_type skill) in
         touch [] (touch [] (fun bucket => bucket ++ [skill]) skill_type)
               category taxonomy_tree)
      all_skills [] in
  domains ←
    mapM (fun '(category, skill_types) =>
            sub_categories ←
              mapM (fun '(skill_type, skills) =>
                      unique_skills ← consolidate_similar_skills skills;
                      Some {| sub_name := skill_type;
                              sub_description :=
                                skill_type +:+ " skills in " +:+ category
                                           +:+ " category";
                              skills := unique_skills |})
                   skill_types;
            Some {| dom_name := category;
                    dom_description := category +:+ " competencies";
                    sub_categories := sub_categories |})
         taxonomy_tree;
  Some {| domains := domains |}.

(** ** The specification's tables and derived notions *)

(** The eight keyword rule-sets, in rule order. *)
Definition rule_sets : list (list string) :=
  [ ["program"; "code"; "compile"; "debug"; "algorithm"; "data structure";
     "function"; "method"; "procedure"];
    ["design"; "develop"; "create"; "build"; "construct"];
    ["understand"; "comprehend"; "aware"; "familiar"; "describe"; "explain"];
    ["test"; "debug"; "evaluate"; "analyze"; "assess"];
    ["architecture"; "organization"; "system"; "structure"];
    ["logic"; "proof"; "mathematical"; "formal"; "automata"];
    ["problem"; "solve"; "solution"];
    ["data"; "information"; "database"] ].

(** A classifier rule: the cues that fire it, the context label handed to
    the main-skill extractor, the category and skill type it tags, and the
    candidate keywords it reports. *)
Record Rule := mkRule {
  cues : list string;
  context : string;
  rule_category : string;
  rule_type : string;
  candidates : list string
}.

(** The eight rules as an ordered table. *)
Definition rules : list Rule :=
  [ mkRule ["program"; "code"; "compile"; "debug"; "algorithm";
            "data structure"; "function"; "method"; "procedure"]
           "Programming" "Technical" "Programming"
           ["program"; "code"; "function"; "algorithm"];
    mkRule ["design"; "develop"; "create"; "build"; "construct"]
           "Design & Development" "Technical" "Software Design"
           ["design"; "develop"; "architecture"];
    mkRule ["understand"; "comprehend"; "aware"; "familiar"; "describe";
            "explain"]
           "Conceptual Understanding" "Cognitive" "Comprehension"
           ["understand"; "knowledge"; "theory"];
    mkRule ["test"; "debug"; "evaluate"; "analyze"; "assess"]
           "Analysis & Testing" "Technical" "Testing & Debugging"
           ["test"; "debug"; "analyze"];
    mkRule ["architecture"; "organization"; "system"; "structure"]
           "Systems & Architecture" "Domain-Specific" "Computer Architecture"
           ["architecture"; "system"; "hardware"];
    mkRule ["logic"; "proof"; "mathematical"; "formal"; "automata"]
           "Theoretical Foundations" "Domain-Specific" "Theory & Mathematics"
           ["logic"; "proof"; "mathematical"];
    mkRule ["problem"; "solve"; "solution"]
           "Problem Solving" "Cognitive" "Problem-Solving"
           ["problem"; "solve"; "solution"];
    mkRule ["data"; "information"; "database"]
           "Data Management" "Technical" "Data Science"
           ["data"; "information"; "analysis"] ].

(** The record a fired rule emits. *)
Definition rule_record (outcome module_code : string) (r : Rule) : Skill :=
  {| skill_name := Some (extract_main_skill outcome (context r));
     description := Some (Str.take 100 outcome);
     category := Some (rule_category r);
     skill_type := Some (rule_type r);
     blooms_level := Some (determine_blooms_level (Str.lower outcome));
     keywords := Some (extract_keywords (Str.lower outcome) (candidates r));
     module := Some module_code |}.

(** The record emitted when no rule fires. *)
Definition fallback_record (outcome module_code : string) : Skill :=
  {| skill_name := Some (Str.take 50 outcome);
     description := Some (Str.take 100 outcome);
     category := Some "General";
     skill_type := Some "General Competency";
     blooms_level := Some (determine_blooms_level (Str.lower outcome));
     keywords := Some [];
     module := Some module_code |}.

(** The records of the rules that fire, in rule order. *)
Definition fired_records (outcome module_code : string) : list Skill :=
  flat_map (fun r =>
              if any_in (cues r) (Str.lower outcome)
              then [rule_record outcome module_code r] else [])
           rules.

(** The classifier as a scan of the rule table. *)
Definition classify_by_rules (outcome module_code : string) : list Skill :=
  match fired_records outcome module_code with
  | [] => [fallback_record outcome module_code]
  | fired => fired
  end.

Definition remember_verbs : list string :=
  ["define"; "list"; "name"; "identify"; "recall"; "recognize"].

Definition create_verbs : list string :=
  ["create"; "design"; "develop"; "construct"; "build"; "formulate";
   "generate"; "plan"].

(** The six verb lists in priority order. *)
Definition bloom_table : list (string * list string) :=
  [ ("Remember", remember_verbs);
    ("Understand", ["understand"; "comprehend"; "explain"; "describe";
                    "summarize"; "interpret"; "classify"]);
    ("Apply", ["apply"; "use"; "solve"; "implement"; "execute"; "carry out";
               "write"; "run"]);
    ("Analyze", ["analyze"; "examine"; "compare"; "contrast"; "differentiate";
                 "organize"; "test"; "debug"]);
    ("Evaluate", ["evaluate"; "assess"; "judge"; "critique"; "justify";
                  "argue"; "defend"]);
    ("Create", create_verbs) ].

(** The first level of the table with a verb in [text], else Apply. *)
Definition first_bloom_match (text : string) : string :=
  match List.find (fun row => any_in (snd row) text) bloom_table with
  | Some row => fst row
  | None => "Apply"
  end.

(** The text before the first comma or semicolon. *)
Fixpoint first_clause (s : string) : string :=
  match s with
  | EmptyString => EmptyString
  | String c s' =>
      if Ascii.eqb c "," || Ascii.eqb c ";" then EmptyString
      else String c (first_clause s')
  end.

(** The main skill name as the specification words it. *)
Definition main_skill_spec (outcome context : string) : string :=
  let stripped := Str.strip outcome in
  if (String.length stripped <? 60)%nat then stripped
  else if (String.length (first_clause stripped) <? 80)%nat
       then first_clause stripped
       else context +:+ " - " +:+ Str.take 40 stripped +:+ "...".

(** A module is retained when its outcome sequence is present and not
    empty. *)
Definition has_outcomes (m : ModuleData) : bool :=
  match learning_outcomes m with
  | Some (_ :: _) => true
  | _ => false
  end.

(** The records the classifier produces for one outcome of module [m]. *)
Definition classify_in (m : ModuleData) (outcome : string) : list Skill :=
  extract_skills_from_outcome outcome (default 0 (level m))
                              (default "Unknown" (code m)).

(** The records of a module: those of its outcomes, in outcome order. *)
Definition skills_of_module (m : ModuleData) : list Skill :=
  flat_map (classify_in m) (default [] (learning_outcomes m)).

(** The number of records of a module, counted outcome by outcome. *)
Definition count_of_module (m : ModuleData) : nat :=
  sum_list (map (fun o => length (classify_in m o))
                (default [] (learning_outcomes m))).

(** [module.copy()] extended with the records of the module. *)
Definition enrich (m : ModuleData) : EnrichedModule :=
  {| base := m; extracted_skills := skills_of_module m |}.

(** The distinct strings of [l], each at the place of its first
    occurrence. *)
Fixpoint first_seen (l : list string) : list string :=
  match l with
  | [] => []
  | x :: l' => x :: filter (fun y => y <> x) (first_seen l')
  end.

(** The elements of [l] whose key is [k], in the order of [l]. *)
Definition members {A : Type} (key : A -> string) (k : string) (l : list A)
  : list A :=
  filter (fun a => key a = k) l.

(** The value a key holds after a scan that updates, for each element, the
    value of its key: the updates of its members applied to the default, in
    order. *)
Definition gathered {A V : Type} (key : A -> string) (dflt : V)
  (upd : A -> V -> V) (k : string) (l : list A) : V :=
  fold_left (fun v a => upd a v) (members key k l) dflt.

(** The fields the consolidator reads, with their defaults. *)
Definition name_of (s : Skill) : string := default "Unknown" (skill_name s).
Definition module_of (s : Skill) : string := default "Unknown" (module s).
Definition blooms_of (s : Skill) : string :=
  default "Unknown" (blooms_level s).
Definition description_of (s : Skill) : string :=
  default "" (description s).

Definition bloom_names : list string :=
  ["Remember"; "Understand"; "Apply"; "Analyze"; "Evaluate"; "Create"].

(** Remember=1 ... Create=6, and 3 for any other string. *)
Definition bloom_rank (b : string) : Z :=
  if decide (b = "Remember") then 1
  else if decide (b = "Understand") then 2
  else if decide (b = "Apply") then 3
  else if decide (b = "Analyze") then 4
  else if decide (b = "Evaluate") then 5
  else if decide (b = "Create") then 6
  else 3.

(** The greatest rank among the Bloom levels [bs]; every rank is at least
    1, and 0 stands for no level at all. *)
Definition max_rank (bs : list string) : Z :=
  foldr (fun b r => Z.max (bloom_rank b) r) 0 bs.

Definition proficiency_of_rank (r : Z) : list string :=
  if r <=? 2 then ["Beginner"]
  else if r <=? 4 then ["Beginner"; "Intermediate"]
  else ["Beginner"; "Intermediate"; "Advanced"].

(** The records of [skills] named [n]. *)
Definition group (n : string) (skills : list Skill) : list Skill :=
  members name_of n skills.

(** What one iteration of the consolidator's first loop does to the entry
    of the record's name. *)
Definition record_skill (skill : Skill) (e : Entry) : Entry :=
  {| e_modules := e_modules e ∪ {[ module_of skill ]};
     e_blooms := e_blooms e ++ [blooms_of skill];
     e_descriptions := e_descriptions e ++ [description_of skill] |}.

(** The consolidated record of the name [n]. *)
Definition consolidated_of (skills : list Skill) (n : string)
  : Consolidated :=
  {| cs_name := n;
     proficiency_levels :=
       proficiency_of_rank (max_rank (blooms_of <$> group n skills));
     appears_in_modules :=
       sorted (list_to_set (module_of <$> group n skills));
     bloom_levels := sorted (list_to_set (blooms_of <$> group n skills)) |}.

(** The fields the taxonomy builder reads, with their defaults. *)
Definition category_of (s : Skill) : string :=
  default "General" (category s).
Definition type_of (s : Skill) : string :=
  default "General" (skill_type s).

(** The records of category [c] and skill type [t], in input order. *)
Definition bucket (c t : string) (all_skills : list Skill) : list Skill :=
  filter (fun s => category_of s = c /\ type_of s = t) all_skills.

(** The skill types met in category [c], in first-encounter order. *)
Definition types_in (c : string) (all_skills : list Skill) : list string :=
  first_seen (type_of <$> members category_of c all_skills).

(** The sub-category of category [c] and skill type [t]. *)
Definition sub_category_of (all_skills : list Skill) (c t : string)
  : SubCategory :=
  {| sub_name := t;
     sub_description := t +:+ " skills in " +:+ c +:+ " category";
     skills :=
       consolidated_of (bucket c t all_skills)
         <$> first_seen (name_of <$> bucket c t all_skills) |}.

(** The domain of category [c]. *)
Definition domain_of (all_skills : list Skill) (c : string) : Domain :=
  {| dom_name := c;
     dom_description := c +:+ " competencies";
     sub_categories :=
       sub_category_of all_skills c <$> types_in c all_skills |}.

(** ** Sample data *)

Definition orientation_module : ModuleData :=
  {| code := Some "COMP100"; title := Some "Orientation";
     level := Some 1; learning_outcomes := Some [] |}.

Definition architecture_module : ModuleData :=
  {| code := Some "COMP101"; title := Some "Computer Architecture";
     level := Some 1;
     learning_outcomes :=
       Some ["Understand the architecture of a modern CPU."] |}.

(** A skill record with the three fields the consolidator groups on. *)
Definition observed (n m b : string) : Skill :=
  {| skill_name := Some n; description := None; category := None;
     skill_type := None; blooms_level := Some b; keywords := None;
     module := Some m |}.

Definition programming_records : list Skill :=
  [ observed "Programming" "COMP201" "Analyze";
    observed "Programming" "COMP101" "Apply" ].

(** One name observed with Remember and with a level outside the six
    names. *)
Definition mixed_records : list Skill :=
  [ observed "Design" "COMP101" "Remember";
    observed "Design" "COMP201" "Mastery" ].

(** A skill record with no field at all. *)
Definition blank_record : Skill :=
  {| skill_name := None; description := None; category := None;
     skill_type := None; blooms_level := None; keywords := None;
     module := None |}.

(** ** The result of [main] *)

Record Result := mkResult {
  res_taxonomy : Taxonomy;
  res_modules : list EnrichedModule;
  res_total_skills : nat;
  res_total_modules : nat
}.

(** The dict [main] builds and dumps, for the modules it loaded ([modules]
    in the source; the name is the projection of [Analysis] here).  Reading
    the input file, the progress lines and the dump itself are left out. *)
Definition main (loaded_modules : list ModuleData) : option Result :=
  let analysis := analyze_learning_outcomes_direct loaded_modules in
  taxonomy ← build_taxonomy_structure (all_skills analysis);
  let result :=
    {| res_taxonomy := taxonomy;
       res_modules := modules analysis;
       res_total_skills := total_skills analysis;
       res_total_modules := total_modules analysis |} in
  Some result.

(** The (category, skill type) tags the classifier can give a record. *)
Definition tag_pairs : list (option string * option string) :=
  [ (Some "Technical", Some "Programming");
    (Some "Technical", Some "Software Design");
    (Some "Cognitive", Some "Comprehension");
    (Some "Technical", Some "Testing & Debugging");
    (Some "Domain-Specific", Some "Computer Architecture");
    (Some "Domain-Specific", Some "Theory & Mathematics");
    (Some "Cognitive", Some "Problem-Solving");
    (Some "Technical", Some "Data Science");
    (Some "General", Some "General Competency") ].

(** What the classification of a record consists of, its name and
    description apart. *)
Definition tags (s : Skill)
  : option string * option string * option string * option (list string) :=
  (category s, skill_type s, blooms_level s, keywords s).

(** The number of consolidated skills in a taxonomy. *)
Definition taxonomy_size (t : Taxonomy) : nat :=
  sum_list ((fun d =>
               sum_list ((fun sc => length (skills sc)) <$> sub_categories d))
              <$> domains t).

(** The number of learning outcomes of a list of modules. *)
Definition outcome_count (ms : list ModuleData) : nat :=
  sum_list (map (fun m => length (default [] (learning_outcomes m))) ms).

(** What the consolidator and the builder read from a record of the
    classifier. *)
Definition well_formed (module_code : string) (s : Skill) : Prop :=
  module_of s = module_code
  /\ (String.length (name_of s) < 80)%nat
  /\ blooms_of s ∈ bloom_names
  /\ (Some (category_of s), Some (type_of s)) ∈ tag_pairs
  /\ category_of s ∈ ["Technical"; "Cognitive"; "Domain-Specific"; "General"].

(** ** Reading the stored result (analysis.py) *)

(** A module as the analyzer finds it in the stored result: the keys of the
    module and the key ['extracted_skills'], which may be absent. *)
Record StoredModule := mkStored {
  stored_base : ModuleData;
  stored_skills : option (list Skill)
}.

(** The enriched module [main] puts in its result, as stored. *)
Definition stored (em : EnrichedModule) : StoredModule :=
  {| stored_base := base em; stored_skills := Some (extracted_skills em) |}.

(** [Counter(xs)]: each element is counted under its own key, a new key
    going to the end. *)
Definition Counter (xs : list string) : list (string * nat) :=
  fold_left (fun counts x => touch 0%nat S x counts) xs [].

(** [d.get(k, dflt)] on an insertion-ordered dict. *)
Fixpoint get {V : Type} (d : list (string * V)) (k : string) (dflt : V) : V :=
  match d with
  | [] => dflt
  | (k', v) :: d' => if decide (k' = k) then v else get d' k dflt
  end.

Definition _count_skills_by_category (modules : list StoredModule)
  : list (string * nat) :=
  let categories :=
    fold_left
      (fun categories module =>
         fold_left
           (fun categories skill =>
              categories ++ [default "Unknown" (category skill)])
           (default [] (stored_skills module)) categories)
      modules [] in
  Counter categories.

Definition _count_skills_by_blooms (modules : list StoredModule)
  : list (string * nat) :=
  let blooms :=
    fold_left
      (fun blooms module =>
         fold_left
           (fun blooms skill =>
              blooms ++ [default "Unknown" (blooms_level skill)])
           (default [] (stored_skills module)) blooms)
      modules [] in
  Counter blooms.

(** The counts [_write_text_report] prints under "SKILLS BY BLOOM'S TAXONOMY
    LEVEL", one per level of [blooms_order]. *)
Definition blooms_report_counts (skills_by_blooms : list (string * nat))
  : list nat :=
  let blooms_order :=
    ["Remember"; "Understand"; "Apply"; "Analyze"; "Evaluate"; "Create"] in
  map (fun level => get skills_by_blooms level 0%nat) blooms_order.

(** The skills of the stored modules, in order. *)
Definition stored_skill_list (modules : list StoredModule) : list Skill :=
  flat_map (fun m => default [] (stored_skills m)) modules.

(** The number of occurrences of [k] in [xs]. *)
Definition occurrences (k : string) (xs : list string) : nat :=
  length (filter (fun x => x = k) xs).

(** ** The scraper's collection loop (scraper.py) *)

(** The loop of [scrape_all_comp_modules], given for each module code in
    turn what [fetch_module_descriptor] answers for it ([None] when the
    module is not found).  A found module is appended, and the loop is left
    once [max_modules] is not zero and that many modules are collected.
    Listing the codes, fetching, the pauses and the dump of the result are
    left out. *)
Fixpoint scrape_loop {M : Type} (max_modules : Z) (answers : list (option M))
  (modules : list M) : list M :=
  match answers with
  | [] => modules
  | module_data :: answers' =>
      match module_data with
      | Some module_data =>
          let modules := modules ++ [module_data] in
          if negb (max_modules =? 0)
             && (Z.of_nat (length modules) >=? max_modules)
          then modules
          else scrape_loop max_modules answers' modules
      | None => scrape_loop max_modules answers' modules
      end
  end.

Definition scrape_all_comp_modules {M : Type} (max_modules : Z)
  (answers : list (option M)) : list M :=
  scrape_loop max_modules answers [].

(** The modules among the answers, in order. *)
Definition found {M : Type} (answers : list (option M)) : list M :=
  omap id answers.

(** ** The stored document (json.dump and json.load) *)

(** A Python [str] in full: the list of its code points.  The text the
    pipeline works on is the part below 256, see [Str]. *)
Definition text := list N.

(** The text of a [string]. *)
Definition txt (s : string) : text := N_of_ascii <$> list_ascii_of_string s.

(** The [string] of a text, when all its code points are below 256. *)
Fixpoint latin1 (t : text) : option string :=
  match t with
  | [] => Some EmptyString
  | c :: t' =>
      if (c <? 256)%N then String (ascii_of_N c) <$> latin1 t' else None
  end.

(** The Python values [json.dump] is documented for, floats apart.  A set
    is given by its elements in some order.  The induction principle that
    goes through the lists is [PyValue_nested_ind]. *)
Unset Elimination Schemes.

Inductive PyValue :=
| PyNone
| PyBool (b : bool)
| PyInt (z : Z)
| PyStr (s : text)
| PyList (l : list PyValue)
| PyTuple (l : list PyValue)
| PySet (l : list PyValue)
| PyDict (items : list (text * PyValue)).

(** The content of a JSON document. *)
Inductive Json :=
| JNull
| JBool (b : bool)
| JNumber (z : Z)
| JString (s : text)
| JArray (l : list Json)
| JObject (members : list (text * Json)).

Set Elimination Schemes.

(** [d.get(k)] and [d[k] = v] on a dict in insertion order: a key that is
    set again keeps its place. *)
Fixpoint dict_get {V : Type} (d : list (text * V)) (k : text) : option V :=
  match d with
  | [] => None
  | (k', v) :: d' => if decide (k' = k) then Some v else dict_get d' k
  end.

Fixpoint dict_set {V : Type} (d : list (text * V)) (k : text) (v : V)
  : list (text * V) :=
  match d with
  | [] => [(k, v)]
  | (k', v') :: d' =>
      if decide (k' = k) then (k', v) :: d' else (k', v') :: dict_set d' k v
  end.


(** A code point a UTF-8 file can hold: any but the surrogates U+D800 to
    U+DFFF. *)
Definition encodable_char (c : N) : bool :=
  (((c <? 55296) || (57343 <? c)) && (c <? 1114112))%N.

Definition encodable (s : text) : bool := forallb encodable_char s.

(** Modelled from the documentation of Python's [json] module:
    [json.dump(v, f, indent=2, ensure_ascii=False)] on a file opened with
    [encoding='utf-8'], as the content of the document written.  A dict
    becomes an object, a list or tuple an array, a str a string, an int a
    number, [True], [False] and [None] become [true], [false] and [null]; a
    set is not serializable ([TypeError]).  With [ensure_ascii=False]
    characters are written as they are, so a str with a code point the file
    cannot encode fails ([UnicodeEncodeError]).  [None] is either error. *)
Fixpoint dump (v : PyValue) : option Json :=
  match v with
  | PyNone => Some JNull
  | PyBool b => Some (JBool b)
  | PyInt z => Some (JNumber z)
  | PyStr s => if encodable s then Some (JString s) else None
  | PyList l => JArray <$> mapM dump l
  | PyTuple l => JArray <$> mapM dump l
  | PySet _ => None
  | PyDict items =>
      JObject
        <$> mapM (fun item =>
                    if encodable (fst item)
                    then pair (fst item) <$> dump (snd item)
                    else None)
                 items
  end.


(** A value [json.load] can return: no tuple, no set, and the keys of a
    dict pairwise different. *)
Fixpoint native (v : PyValue) : bool :=
  match v with
  | PyList l => forallb native l
  | PyTuple _ | PySet _ => false
  | PyDict items =>
      bool_decide (NoDup (fst <$> items))
      && forallb (fun item => native (snd item)) items
  | _ => true
  end.

(** Every str and every key of the value is free of surrogates. *)
Fixpoint unicode (v : PyValue) : bool :=
  match v with
  | PyStr s => encodable s
  | PyList l | PyTuple l | PySet l => forallb unicode l
  | PyDict items =>
      forallb (fun item => encodable (fst item) && unicode (snd item)) items
  | _ => true
  end.

(** Both together: a value that can be stored and read back. *)
Definition clean (v : PyValue) : Prop :=
  native v = true /\ unicode v = true.

(** *** The result of [main] as a Python value *)

Definition py_str (s : string) : PyValue := PyStr (txt s).

Definition py_strs (l : list string) : PyValue := PyList (py_str <$> l).

(** The entries of a dict literal, an absent value being an absent key. *)
Definition present (entries : list (string * option PyValue))
  : list (text * PyValue) :=
  omap (fun e => pair (txt (fst e)) <$> snd e) entries.

Definition py_of_skill (s : Skill) : PyValue :=
  PyDict (present
            [ ("skill_name", py_str <$> skill_name s);
              ("description", py_str <$> description s);
              ("category", py_str <$> category s);
              ("skill_type", py_str <$> skill_type s);
              ("blooms_level", py_str <$> blooms_level s);
              ("keywords", py_strs <$> keywords s);
              ("module", py_str <$> module s) ]).





(** What the pipeline reads of a loaded module.  The outer [None] is a
    value the embedding does not cover: a key of another type than the data
    model gives it, or text with a code point above 255. *)
Definition read_str (d : list (text * PyValue)) (k : string)
  : option (option string) :=
  match dict_get d (txt k) with
  | None => Some None
  | Some (PyStr t) => Some <$> latin1 t
  | Some _ => None
  end.

Definition read_int (d : list (text * PyValue)) (k : string)
  : option (option Z) :=
  match dict_get d (txt k) with
  | None => Some None
  | Some (PyInt z) => Some (Some z)
  | Some _ => None
  end.

Definition read_strs (d : list (text * PyValue)) (k : string)
  : option (option (list string)) :=
  match dict_get d (txt k) with
  | None => Some None
  | Some (PyList l) =>
      Some <$> mapM (fun x => match x with
                              | PyStr t => latin1 t
                              | _ => None
                              end) l
  | Some _ => None
  end.

Definition module_of_py (m : PyValue) : option ModuleData :=
  match m with
  | PyDict d =>
      code ← read_str d "code";
      title ← read_str d "title";
      level ← read_int d "level";
      learning_outcomes ← read_strs d "learning_outcomes";
      Some {| code := code; title := title; level := level;
              learning_outcomes := learning_outcomes |}
  | _ => None
  end.

(** [module_copy = module.copy()] followed by
    [module_copy['extracted_skills'] = module_skills], on the loaded dict
    itself, whose other keys are carried along. *)
Definition module_copy (m : PyValue) (module_skills : list Skill) : PyValue :=
  match m with
  | PyDict d =>
      PyDict (dict_set d (txt "extracted_skills")
                       (PyList (py_of_skill <$> module_skills)))
  | _ => m
  end.

(** The loaded modules the extractor keeps. *)
Definition kept (loaded : list PyValue) : list PyValue :=
  filter (fun m => from_option has_outcomes false (module_of_py m) = true)
         loaded.




(** * Properties *)

(** ** Strings *)

Section StringFacts.

Lemma fst_split_cons sep c s :
  fst (Str.split sep (String c s))
  = if Ascii.eqb c sep then EmptyString
    else String c (fst (Str.split sep s)).
Proof.
  cbn [Str.split]. destruct (Str.split sep s) as [h t].
  now destruct (Ascii.eqb c sep).
Qed.

Lemma first_clause_split s :
  Str.item0 (Str.split ";" (Str.item0 (Str.split "," s))) = first_clause s.
Proof.
  unfold Str.item0. induction s as [|c s IH]; [reflexivity|].
  rewrite fst_split_cons. cbn [first_clause].
  destruct (Ascii.eqb c ",") eqn:Hc; [reflexivity|].
  rewrite fst_split_cons, IH. now destruct (Ascii.eqb c ";").
Qed.

Lemma lower_length s : String.length (Str.lower s) = String.length s.
Proof. induction s; cbn; congruence. Qed.

Lemma str_app_cons c a b : String c a +:+ b = String c (a +:+ b).
Proof. reflexivity. Qed.

Lemma str_app_empty b : EmptyString +:+ b = b.
Proof. reflexivity. Qed.

Lemma prefix_spec a b :
  String.prefix a b = true <-> exists post, b = a +:+ post.
Proof.
  revert b. induction a as [|c a IH]; intros b.
  - destruct b; cbn; split; eauto.
  - destruct b as [|c' b]; cbn.
    { split; [discriminate | now intros [? ?]]. }
    destruct (ascii_dec c c') as [->|Hne].
    + rewrite IH. split; intros [post H]; exists post;
        [now rewrite H | now injection H].
    + split; [discriminate|]. intros [post H]. injection H as H1 _.
      congruence.
Qed.

(** [Str.contains] is the substring test. *)
Lemma contains_spec sub text :
  Str.contains sub text = true
  <-> exists pre post, text = pre +:+ sub +:+ post.
Proof.
  induction text as [|c text IH]; cbn [Str.contains].
  - rewrite orb_false_r, prefix_spec. split.
    + intros [post H]. now exists EmptyString, post.
    + intros ([|? ?] & post & H); [now exists post | discriminate].
  - rewrite orb_true_iff, IH, prefix_spec. split.
    + intros [[post H]|(pre & post & H)].
      * now exists EmptyString, post.
      * exists (String c pre), post. now rewrite str_app_cons, H.
    + intros ([|c' pre] & post & H).
      * left. now exists post.
      * right. exists pre, post. now injection H.
Qed.

Lemma lower_app a b : Str.lower (a +:+ b) = Str.lower a +:+ Str.lower b.
Proof.
  induction a as [|c a IH]; [reflexivity|].
  rewrite str_app_cons. cbn [Str.lower]. now rewrite IH, str_app_cons.
Qed.

Lemma prefix_lower a b :
  String.prefix a b = true ->
  String.prefix (Str.lower a) (Str.lower b) = true.
Proof.
  rewrite !prefix_spec. intros [post ->]. exists (Str.lower post).
  apply lower_app.
Qed.

(** A word that occurs in the raw text occurs, lower-cased, in the
    lower-cased text. *)
Lemma contains_lower w s :
  Str.contains w s = true ->
  Str.contains (Str.lower w) (Str.lower s) = true.
Proof.
  induction s as [|c s IH]; cbn [Str.contains Str.lower];
    rewrite !orb_true_iff.
  - intros [H|H]; [|discriminate]. left. now apply (prefix_lower w "").
  - intros [H|H]; [left | right; now apply IH].
    now apply (prefix_lower w (String c s)).
Qed.

(** [Str.take n s] is the prefix of [s] of length [min n (len s)]. *)
Lemma take_spec n s :
  String.length (Str.take n s) = Nat.min n (String.length s)
  /\ exists rest, s = Str.take n s +:+ rest.
Proof.
  revert s. induction n as [|n IH]; intros s.
  - destruct s; cbn; split; eauto.
  - destruct s as [|c s]; cbn; [split; eauto|].
    destruct (IH s) as [Hlen [rest Hrest]]. split; [now rewrite Hlen|].
    exists rest. now rewrite str_app_cons, <- Hrest.
Qed.

Lemma lstrip_spec s :
  (exists l, s = l +:+ Str.lstrip s /\ Str.all_space l = true)
  /\ (Str.lstrip s = EmptyString
      \/ exists c t, Str.lstrip s = String c t /\ Str.isspace c = false).
Proof.
  induction s as [|c s [[l [Hl Hsp]] Hedge]]; cbn.
  - split; [now exists EmptyString | now left].
  - destruct (Str.isspace c) eqn:Hc.
    + split; [|exact Hedge]. exists (String c l).
      rewrite str_app_cons, <- Hl. cbn. now rewrite Hc, Hsp.
    + split; [now exists EmptyString | right; eauto].
Qed.

Lemma rstrip_spec s :
  (exists r, s = Str.rstrip s +:+ r /\ Str.all_space r = true)
  /\ (Str.rstrip s = EmptyString
      \/ exists p c,
           Str.rstrip s = p +:+ String c EmptyString
           /\ Str.isspace c = false).
Proof.
  induction s as [|c s [[r [Hr Hsp]] Hedge]]; cbn.
  - split; [now exists EmptyString | now left].
  - destruct (Str.rstrip s) as [|a t] eqn:Hrs.
    + rewrite str_app_empty in Hr. subst r. destruct (Str.isspace c) eqn:Hc.
      * split; [|now left]. exists (String c s). cbn. now rewrite Hc, Hsp.
      * split; [now exists s|]. right. now exists EmptyString, c.
    + split; [exists r; now rewrite str_app_cons, <- Hr|].
      destruct Hedge as [?|(p & c' & Hp & Hc')]; [discriminate|].
      right. exists (String c p), c'. now rewrite str_app_cons, Hp.
Qed.

(** [Str.strip] removes a run of whitespace at each end and leaves none. *)
Lemma strip_spec s :
  exists l r,
    s = l +:+ Str.strip s +:+ r
    /\ Str.all_space l = true /\ Str.all_space r = true.
Proof.
  destruct (lstrip_spec s) as [[l [Hl Hlsp]] _].
  destruct (rstrip_spec (Str.lstrip s)) as [[r [Hr Hrsp]] _].
  exists l, r. unfold Str.strip. now rewrite <- Hr, <- Hl.
Qed.

(** [first_clause s] is the part of [s] before its first comma or
    semicolon. *)
Lemma first_clause_spec s :
  Str.contains "," (first_clause s) = false
  /\ Str.contains ";" (first_clause s) = false
  /\ exists rest,
      s = first_clause s +:+ rest
      /\ (rest = EmptyString
          \/ exists c t, rest = String c t /\ (c = "," \/ c = ";")%char).
Proof.
  induction s as [|c s (Hcomma & Hsemi & rest & Hrest & Hd)].
  - repeat split. exists EmptyString. split; [reflexivity | now left].
  - cbn [first_clause].
    destruct (Ascii.eqb c ",") eqn:Hc1; cbn [orb].
    { repeat split. exists (String c s). split; [reflexivity|].
      right. exists c, s. apply Ascii.eqb_eq in Hc1. auto. }
    destruct (Ascii.eqb c ";") eqn:Hc2.
    { repeat split. exists (String c s). split; [reflexivity|].
      right. exists c, s. apply Ascii.eqb_eq in Hc2. auto. }
    apply Ascii.eqb_neq in Hc1, Hc2.
    split; [|split].
    + cbn [Str.contains String.prefix].
      destruct (ascii_dec "," c); [congruence|]. exact Hcomma.
    + cbn [Str.contains String.prefix].
      destruct (ascii_dec ";" c); [congruence|]. exact Hsemi.
    + exists rest. split; [now rewrite str_app_cons, <- Hrest | exact Hd].
Qed.

End StringFacts.

(** ** Classifier *)

Section Classifier.

Variables (outcome : string) (level : Z) (module_code : string).

Lemma bloom_first_match text :
  determine_blooms_level text = first_bloom_match text.
Proof.
  unfold determine_blooms_level, first_bloom_match, bloom_table,
    remember_verbs, create_verbs.
  cbn [List.find snd fst].
  repeat match goal with
         | |- context [if any_in ?l text then _ else _] =>
             destruct (any_in l text); [reflexivity|]
         end.
  reflexivity.
Qed.

(** Eight guarded appends followed by the fallback test, for any guards
    and records. *)
Lemma append_chain (b1 b2 b3 b4 b5 b6 b7 b8 : bool)
  (r1 r2 r3 r4 r5 r6 r7 r8 fb : Skill) :
  (let skills : list Skill := [] in
   let skills := if b1 then skills ++ [r1] else skills in
   let skills := if b2 then skills ++ [r2] else skills in
   let skills := if b3 then skills ++ [r3] else skills in
   let skills := if b4 then skills ++ [r4] else skills in
   let skills := if b5 then skills ++ [r5] else skills in
   let skills := if b6 then skills ++ [r6] else skills in
   let skills := if b7 then skills ++ [r7] else skills in
   let skills := if b8 then skills ++ [r8] else skills in
   let skills :=
     if bool_decide (skills = []) then skills ++ [fb] else skills in
   skills)
  = match
      flat_map (fun br : bool * Skill => if fst br then [snd br] else [])
        [(b1, r1); (b2, r2); (b3, r3); (b4, r4); (b5, r5); (b6, r6);
         (b7, r7); (b8, r8)]
    with
    | [] => [fb]
    | fired => fired
    end.
Proof.
  destruct b1, b2, b3, b4, b5, b6, b7, b8; reflexivity.
Qed.

(** The chain of conditionals of the classifier is a scan of the rule
    table. *)
Lemma extract_skills_by_rules :
  extract_skills_from_outcome outcome level module_code
  = classify_by_rules outcome module_code.
Proof.
  unfold extract_skills_from_outcome.
  etransitivity; [apply append_chain | reflexivity].
Qed.

Lemma rule_sets_cues : map cues rules = rule_sets.
Proof. reflexivity. Qed.

Lemma fired_records_none :
  Forall (fun ws => any_in ws (Str.lower outcome) = false) rule_sets ->
  fired_records outcome module_code = [].
Proof.
  rewrite <- rule_sets_cues. unfold fired_records.
  induction rules as [|r rs IH]; cbn; [reflexivity|].
  intros H. apply Forall_cons in H as [Hr H].
  rewrite Hr. now apply IH.
Qed.

Lemma fired_records_blooms :
  Forall (fun s =>
            blooms_level s
            = Some (determine_blooms_level (Str.lower outcome)))
         (fired_records outcome module_code).
Proof.
  unfold fired_records.
  induction rules as [|r rs IH]; cbn; [constructor|].
  destruct (any_in (cues r) (Str.lower outcome)); cbn; [constructor|];
    auto.
Qed.

Lemma extract_skills_nonempty :
  extract_skills_from_outcome outcome level module_code <> [].
Proof.
  rewrite extract_skills_by_rules. unfold classify_by_rules.
  destruct (fired_records outcome module_code); discriminate.
Qed.

Lemma extract_skills_fallback :
  Forall (fun ws => any_in ws (Str.lower outcome) = false) rule_sets ->
  extract_skills_from_outcome outcome level module_code
  = [fallback_record outcome module_code].
Proof.
  intros H. rewrite extract_skills_by_rules. unfold classify_by_rules.
  now rewrite fired_records_none.
Qed.

Lemma extract_skills_blooms :
  Forall (fun s =>
            blooms_level s
            = Some (determine_blooms_level (Str.lower outcome)))
         (extract_skills_from_outcome outcome level module_code).
Proof.
  rewrite extract_skills_by_rules. unfold classify_by_rules.
  pose proof fired_records_blooms as H.
  destruct (fired_records outcome module_code); [|exact H].
  repeat constructor.
Qed.

End Classifier.

(** C1. The classifier returns at least one skill record for every outcome;
    and when the lower-cased outcome contains no keyword of any of the eight
    rule-sets it returns exactly one record, whose category is General, whose
    skill type is General Competency and whose skill name is the first 50
    characters of the raw outcome. *)
Theorem classifier_total_with_fallback
  (outcome : string) (level : Z) (module_code : string) :
  (1 <= length (extract_skills_from_outcome outcome level module_code))%nat
  /\ (Forall (fun ws => any_in ws (Str.lower outcome) = false) rule_sets ->
      exists s,
        extract_skills_from_outcome outcome level module_code = [s]
        /\ category s = Some "General"
        /\ skill_type s = Some "General Competency"
        /\ skill_name s = Some (Str.take 50 outcome)).
Proof.
  split.
  - pose proof (extract_skills_nonempty outcome level module_code) as Hne.
    destruct (extract_skills_from_outcome outcome level module_code);
      [congruence | cbn; lia].
  - intros H. eexists. split; [now apply extract_skills_fallback|].
    cbn. auto.
Qed.

Lemma classifier_total_with_fallback_witness :
  Forall (fun ws => any_in ws (Str.lower "Attend every lecture") = false)
         rule_sets
  /\ exists s,
      extract_skills_from_outcome "Attend every lecture" 1 "COMP101" = [s]
      /\ category s = Some "General"
      /\ skill_type s = Some "General Competency"
      /\ skill_name s = Some (Str.take 50 "Attend every lecture").
Proof.
  assert (H : Forall (fun ws => any_in ws (Str.lower "Attend every lecture")
                                = false) rule_sets)
    by (repeat constructor).
  split; [exact H|].
  exact (proj2 (classifier_total_with_fallback
                  "Attend every lecture" 1 "COMP101") H).
Defined.

(** C2. Every record of an outcome carries the one Bloom level computed from
    the lower-cased outcome; that level is the first of Remember, Understand,
    Apply, Analyze, Evaluate, Create whose verb list has a verb occurring in
    the text, and Apply when none has; so an outcome with both a Remember
    verb and a Create verb is assigned Remember. *)
Theorem bloom_priority_order
  (outcome : string) (level : Z) (module_code : string) :
  Forall (fun s =>
            blooms_level s = Some (determine_blooms_level (Str.lower outcome)))
         (extract_skills_from_outcome outcome level module_code)
  /\ map fst bloom_table
     = ["Remember"; "Understand"; "Apply"; "Analyze"; "Evaluate"; "Create"]
  /\ determine_blooms_level (Str.lower outcome)
     = first_bloom_match (Str.lower outcome)
  /\ (any_in remember_verbs (Str.lower outcome) = true ->
      any_in create_verbs (Str.lower outcome) = true ->
      determine_blooms_level (Str.lower outcome) = "Remember").
Proof.
  split; [apply extract_skills_blooms|].
  split; [reflexivity|].
  split; [apply bloom_first_match|].
  intros Hr _. unfold determine_blooms_level.
  unfold remember_verbs in Hr. now rewrite Hr.
Qed.

Lemma bloom_priority_order_witness :
  any_in remember_verbs (Str.lower "Design and LIST the modules") = true
  /\ any_in create_verbs (Str.lower "Design and LIST the modules") = true
  /\ determine_blooms_level (Str.lower "Design and LIST the modules")
     = "Remember".
Proof.
  assert (Hr : any_in remember_verbs
                 (Str.lower "Design and LIST the modules") = true)
    by reflexivity.
  assert (Hc : any_in create_verbs
                 (Str.lower "Design and LIST the modules") = true)
    by reflexivity.
  split; [exact Hr|]. split; [exact Hc|].
  exact (proj2 (proj2 (proj2 (bloom_priority_order
                                "Design and LIST the modules" 2 "COMP201")))
           Hr Hc).
Defined.

(** C7. The main skill name is the stripped outcome when that is shorter
    than 60 characters; otherwise the text up to its first comma or
    semicolon when that clause is shorter than 80 characters; otherwise the
    context label, " - ", the first 40 characters of the stripped outcome
    and "...". *)
Theorem main_skill_name (outcome context : string) :
  extract_main_skill outcome context = main_skill_spec outcome context.
Proof.
  unfold extract_main_skill, main_skill_spec. cbv zeta.
  now rewrite first_clause_split.
Qed.

(** C9. On the empty outcome the classifier returns the single fallback
    record, with empty skill name and description, Bloom level Apply and no
    keywords. *)
Theorem classifier_empty_outcome (level : Z) (module_code : string) :
  extract_skills_from_outcome "" level module_code
  = [ {| skill_name := Some "";
         description := Some "";
         category := Some "General";
         skill_type := Some "General Competency";
         blooms_level := Some "Apply";
         keywords := Some [];
         module := Some module_code |} ].
Proof. reflexivity. Qed.

(** ** Extractor *)

Section Extractor.

(** The inner loop over the outcomes of one module. *)
Lemma outcome_loop (f : string -> list Skill) outcomes module_skills all :
  fold_left
    (fun '(module_skills, all_extracted_skills) outcome =>
       let skills := f outcome in
       (module_skills ++ skills, all_extracted_skills ++ skills))
    outcomes (module_skills, all)
  = (module_skills ++ flat_map f outcomes, all ++ flat_map f outcomes).
Proof.
  revert module_skills all.
  induction outcomes as [|o outcomes IH]; intros ms all; cbn.
  - now rewrite !app_nil_r.
  - rewrite IH. now rewrite <- !app_assoc.
Qed.

Lemma has_outcomes_decide m :
  bool_decide (default [] (learning_outcomes m) = []) = negb (has_outcomes m).
Proof.
  unfold has_outcomes. destruct (learning_outcomes m) as [[|o l]|]; reflexivity.
Qed.

(** The outer loop over the modules, from any accumulator. *)
Lemma module_loop ms all enriched :
  fold_left
    (fun '(all_extracted_skills, enriched_modules) module =>
       let code := default "Unknown" (code module) in
       let title := default "Unknown" (title module) in
       let level := default 0 (level module) in
       let outcomes := default [] (learning_outcomes module) in
       if bool_decide (outcomes = [])
       then (all_extracted_skills, enriched_modules)
       else
         let '(module_skills, all_extracted_skills) :=
           fold_left
             (fun '(module_skills, all_extracted_skills) outcome =>
                let skills :=
                  extract_skills_from_outcome outcome level code in
                (module_skills ++ skills, all_extracted_skills ++ skills))
             outcomes ([], all_extracted_skills) in
         let module_copy :=
           {| base := module; extracted_skills := module_skills |} in
         (all_extracted_skills, enriched_modules ++ [module_copy]))
    ms (all, enriched)
  = (all ++ flat_map skills_of_module (List.filter has_outcomes ms),
     enriched ++ map enrich (List.filter has_outcomes ms)).
Proof.
  revert all enriched.
  induction ms as [|m ms IH]; intros all enriched.
  - cbn. now rewrite !app_nil_r.
  - cbn [fold_left List.filter]. cbv zeta.
    rewrite has_outcomes_decide.
    destruct (has_outcomes m) eqn:Hm; cbn [negb].
    + rewrite (outcome_loop
                 (fun o => extract_skills_from_outcome o
                             (default 0 (level m))
                             (default "Unknown" (code m)))).
      rewrite IH. cbn [flat_map map app].
      unfold enrich at 2. unfold skills_of_module at 2 3.
      unfold classify_in.
      now rewrite <- !app_assoc.
    + apply IH.
Qed.

Lemma analyze_unfold ms :
  analyze_learning_outcomes_direct ms
  = let all := flat_map skills_of_module (List.filter has_outcomes ms) in
    let enriched := map enrich (List.filter has_outcomes ms) in
    {| modules := enriched; all_skills := all;
       total_modules := length enriched; total_skills := length all |}.
Proof.
  unfold analyze_learning_outcomes_direct.
  now rewrite module_loop.
Qed.

Lemma flat_map_length_sum {A B} (f : A -> list B) l :
  length (flat_map f l) = sum_list (map (fun x => length (f x)) l).
Proof.
  induction l as [|x l IH]; cbn; [reflexivity|].
  now rewrite length_app, IH.
Qed.

End Extractor.

(** C6. A module whose outcome sequence is empty or absent is left out of
    the enriched modules and contributes no skill record; [total_modules] is
    the number of retained modules, and [total_skills] is the length of the
    flat skill sequence, which is the sum over the retained modules, and over
    their outcomes in order, of the number of records of each outcome. *)
Theorem extractor_drops_empty_modules (ms : list ModuleData) :
  modules (analyze_learning_outcomes_direct ms)
  = map enrich (List.filter has_outcomes ms)
  /\ all_skills (analyze_learning_outcomes_direct ms)
     = flat_map skills_of_module (List.filter has_outcomes ms)
  /\ (forall m,
        default [] (learning_outcomes m) = [] ->
        (m ∉ map base (modules (analyze_learning_outcomes_direct ms)))
        /\ skills_of_module m = [])
  /\ total_modules (analyze_learning_outcomes_direct ms)
     = length (List.filter has_outcomes ms)
  /\ total_skills (analyze_learning_outcomes_direct ms)
     = length (all_skills (analyze_learning_outcomes_direct ms))
  /\ total_skills (analyze_learning_outcomes_direct ms)
     = sum_list (map count_of_module (List.filter has_outcomes ms)).
Proof.
  rewrite analyze_unfold. cbn.
  split; [reflexivity|]. split; [reflexivity|]. split; [|split; [|split]].
  - intros m Hm. split.
    + rewrite map_map. cbn. rewrite map_id.
      rewrite list_elem_of_In, filter_In. intros [_ Hhas].
      unfold has_outcomes in Hhas.
      destruct (learning_outcomes m) as [[|o l]|]; cbn in Hm; congruence.
    + unfold skills_of_module. now rewrite Hm.
  - now rewrite length_map.
  - reflexivity.
  - rewrite flat_map_length_sum. f_equal. apply map_ext. intros m.
    unfold skills_of_module, count_of_module. apply flat_map_length_sum.
Qed.

Lemma extractor_drops_empty_modules_witness :
  default [] (learning_outcomes orientation_module) = []
  /\ (orientation_module
        ∉ map base
            (modules (analyze_learning_outcomes_direct
                        [orientation_module; architecture_module])))
  /\ skills_of_module orientation_module = [].
Proof.
  split; [reflexivity|].
  exact (proj1 (proj2 (proj2 (extractor_drops_empty_modules
                                [orientation_module; architecture_module])))
           orientation_module eq_refl).
Defined.

(** ** Grouping in first-seen order *)

Section FirstSeen.

Lemma elem_of_first_seen x l : x ∈ first_seen l <-> x ∈ l.
Proof.
  induction l as [|y l IH]; cbn; [reflexivity|].
  rewrite !elem_of_cons, list_elem_of_filter, IH.
  destruct (decide (x = y)); tauto.
Qed.

Lemma NoDup_first_seen l : NoDup (first_seen l).
Proof.
  induction l as [|y l IH]; cbn; constructor.
  - rewrite list_elem_of_filter. intros [Hne _]. now apply Hne.
  - now apply NoDup_filter.
Qed.

(** Scanning one more string: it is recorded when it is new. *)
Lemma first_seen_snoc l x :
  first_seen (l ++ [x])
  = if decide (x ∈ l) then first_seen l else first_seen l ++ [x].
Proof.
  induction l as [|y l IH]; cbn.
  - destruct (decide (x ∈ [])) as [H|_]; [inversion H|reflexivity].
  - rewrite IH.
    destruct (decide (x ∈ y :: l)) as [Hin'|Hnin'];
      destruct (decide (x ∈ l)) as [Hin|Hnin]; try reflexivity.
    + apply elem_of_cons in Hin' as [->|Hin']; [|contradiction].
      rewrite filter_app, filter_cons, filter_nil.
      destruct (decide (y <> y)); [congruence|]. now rewrite app_nil_r.
    + exfalso. apply Hnin'. apply elem_of_cons. now right.
    + rewrite filter_app, filter_cons, filter_nil.
      destruct (decide (x <> y)) as [_|Heq]; [reflexivity|].
      exfalso. apply Hnin'. apply elem_of_cons. left.
      destruct (decide (x = y)); [assumption|contradiction].
Qed.

End FirstSeen.

Section Touch.

Context {V : Type} (dflt : V) (f : V -> V).

Lemma touch_present (g : string -> V) k keys :
  NoDup keys -> k ∈ keys ->
  touch dflt f k ((fun n => (n, g n)) <$> keys)
  = (fun n => (n, if decide (n = k) then f (g n) else g n)) <$> keys.
Proof.
  induction keys as [|x keys IH]; intros Hnd Hin; [inversion Hin|].
  apply NoDup_cons in Hnd as [Hx Hnd]. cbn.
  destruct (decide (x = k)) as [->|Hne].
  - f_equal. apply Forall_fmap_ext, Forall_forall. intros n Hn.
    rewrite decide_False; [reflexivity|]. intros ->. contradiction.
  - f_equal. apply IH; [exact Hnd|].
    apply elem_of_cons in Hin as [->|Hin]; [contradiction|exact Hin].
Qed.

Lemma touch_absent (g : string -> V) k keys :
  k ∉ keys ->
  touch dflt f k ((fun n => (n, g n)) <$> keys)
  = ((fun n => (n, g n)) <$> keys) ++ [(k, f dflt)].
Proof.
  induction keys as [|x keys IH]; intros Hnin; [reflexivity|].
  apply not_elem_of_cons in Hnin as [Hne Hnin]. cbn.
  rewrite decide_False by congruence. f_equal. now apply IH.
Qed.

End Touch.

Section GroupBy.

Context {A V : Type} (key : A -> string) (dflt : V) (upd : A -> V -> V).

Lemma members_snoc k l a :
  members key k (l ++ [a])
  = members key k l ++ (if decide (key a = k) then [a] else []).
Proof.
  unfold members. rewrite filter_app, filter_cons, filter_nil.
  reflexivity.
Qed.

Lemma members_none k l : k ∉ key <$> l -> members key k l = [].
Proof.
  intros Hnin. unfold members.
  induction l as [|a l IH]; [reflexivity|].
  rewrite fmap_cons, not_elem_of_cons in Hnin. destruct Hnin as [Hne Hnin].
  rewrite filter_cons, decide_False by congruence. now apply IH.
Qed.

Lemma gathered_snoc k l a :
  gathered key dflt upd k (l ++ [a])
  = if decide (key a = k) then upd a (gathered key dflt upd k l)
    else gathered key dflt upd k l.
Proof.
  unfold gathered. rewrite members_snoc.
  destruct (decide (key a = k)); [|now rewrite app_nil_r].
  now rewrite fold_left_app.
Qed.

(** A scan that touches the key of each element leaves one entry per
    distinct key, in first-seen order, holding what the key gathered. *)
Lemma group_by_first_seen l :
  fold_left (fun d a => touch dflt (upd a) (key a) d) l []
  = (fun k => (k, gathered key dflt upd k l)) <$> first_seen (key <$> l).
Proof.
  induction l as [|a l IH] using rev_ind; [reflexivity|].
  rewrite fold_left_app. cbn [fold_left]. rewrite IH.
  rewrite fmap_app. cbn [fmap list_fmap]. rewrite first_seen_snoc.
  destruct (decide (key a ∈ key <$> l)) as [Hin|Hnin].
  - rewrite touch_present;
      [|apply NoDup_first_seen|now apply elem_of_first_seen].
    apply Forall_fmap_ext, Forall_forall. intros n _.
    rewrite gathered_snoc.
    destruct (decide (n = key a)) as [->|Hne].
    + now rewrite decide_True.
    + now rewrite decide_False by congruence.
  - rewrite touch_absent by (now rewrite elem_of_first_seen).
    rewrite fmap_app. cbn [fmap list_fmap]. f_equal.
    + apply Forall_fmap_ext, Forall_forall. intros n Hn.
      rewrite gathered_snoc, decide_False; [reflexivity|].
      intros Heq. apply Hnin. rewrite Heq.
      now apply elem_of_first_seen.
    + rewrite gathered_snoc, decide_True by reflexivity.
      unfold gathered. now rewrite members_none.
Qed.

End GroupBy.

(** ** Consolidator *)

Section Consolidator.

Lemma fold_left_ext {A B} (f g : A -> B -> A) l a :
  (forall a b, f a b = g a b) -> fold_left f l a = fold_left g l a.
Proof.
  intros Hfg. revert a. induction l as [|b l IH]; intros a; cbn;
    [reflexivity|]. now rewrite Hfg, IH.
Qed.

Lemma touch_touch {V} (dflt : V) (f g : V -> V) k d :
  touch dflt f k (touch dflt g k d) = touch dflt (fun v => f (g v)) k d.
Proof.
  induction d as [|[k' v] d IH]; cbn.
  - now rewrite decide_True.
  - destruct (decide (k' = k)) as [->|Hne]; cbn.
    + now rewrite decide_True.
    + rewrite decide_False by exact Hne. now rewrite IH.
Qed.

Lemma members_nonempty {A} (key : A -> string) k l :
  k ∈ key <$> l -> members key k l <> [].
Proof.
  intros Hin Hnil. apply list_elem_of_fmap in Hin as (a & -> & Ha).
  assert (Hmem : a ∈ members key (key a) l)
    by (now apply list_elem_of_filter).
  rewrite Hnil in Hmem. inversion Hmem.
Qed.

(** The entry a list of records builds up from the empty one. *)
Lemma record_skill_fold l :
  fold_left (fun e s => record_skill s e) l new_entry
  = {| e_modules := list_to_set (module_of <$> l);
       e_blooms := blooms_of <$> l;
       e_descriptions := description_of <$> l |}.
Proof.
  induction l as [|s l IH] using rev_ind; [reflexivity|].
  rewrite fold_left_app. cbn [fold_left]. rewrite IH.
  unfold record_skill. cbn [e_modules e_blooms e_descriptions].
  rewrite !fmap_app. cbn [fmap list_fmap]. f_equal.
  rewrite list_to_set_app_L. cbn [list_to_set].
  now rewrite (right_id_L ∅ (∪)).
Qed.

(** The dict the first loop of the consolidator leaves. *)
Lemma skill_map_spec skills :
  fold_left
    (fun skill_map skill =>
       let name := default "Unknown" (skill_name skill) in
       let module := default "Unknown" (module skill) in
       let blooms := default "Unknown" (blooms_level skill) in
       let desc := default "" (description skill) in
       let skill_map :=
         touch new_entry
           (fun e => {| e_modules := e_modules e ∪ {[ module ]};
                        e_blooms := e_blooms e;
                        e_descriptions := e_descriptions e |})
           name skill_map in
       let skill_map :=
         touch new_entry
           (fun e => {| e_modules := e_modules e;
                        e_blooms := e_blooms e ++ [blooms];
                        e_descriptions := e_descriptions e |})
           name skill_map in
       let skill_map :=
         touch new_entry
           (fun e => {| e_modules := e_modules e;
                        e_blooms := e_blooms e;
                        e_descriptions := e_descriptions e ++ [desc] |})
           name skill_map in
       skill_map)
    skills []
  = (fun n =>
       (n, {| e_modules := list_to_set (module_of <$> group n skills);
              e_blooms := blooms_of <$> group n skills;
              e_descriptions := description_of <$> group n skills |}))
      <$> first_seen (name_of <$> skills).
Proof.
  erewrite fold_left_ext.
  - rewrite (group_by_first_seen name_of new_entry record_skill).
    apply Forall_fmap_ext, Forall_forall. intros n _.
    unfold gathered, group. now rewrite record_skill_fold.
  - intros d s. cbv zeta. now rewrite !touch_touch.
Qed.

(** [sorted] lists exactly the members of the set, ascending and once
    each. *)
Lemma sorted_spec (S : gset string) :
  StronglySorted String.le (sorted S)
  /\ NoDup (sorted S)
  /\ forall x, x ∈ sorted S <-> x ∈ S.
Proof.
  unfold sorted. split; [|split].
  - apply StronglySorted_merge_sort; apply _.
  - rewrite merge_sort_Permutation. apply NoDup_elements.
  - intros x. rewrite merge_sort_Permutation. apply elem_of_elements.
Qed.

Lemma fold_max_spec (xs : list Z) (x : Z) :
  (fold_left Z.max xs x = x \/ fold_left Z.max xs x ∈ xs)
  /\ x <= fold_left Z.max xs x
  /\ Forall (fun y => y <= fold_left Z.max xs x) xs.
Proof.
  revert x. induction xs as [|y xs IH]; intros x; cbn.
  - repeat split; [now left | lia | constructor].
  - destruct (IH (Z.max x y)) as (Hmem & Hle & Hall).
    repeat split.
    + destruct Hmem as [Heq|Hin].
      * destruct (Z.max_spec x y) as [[_ Hm]|[_ Hm]]; rewrite Hm in *.
        -- right. rewrite Heq. apply elem_of_cons. now left.
        -- now left.
      * right. apply elem_of_cons. now right.
    + lia.
    + constructor; [lia | exact Hall].
Qed.

Lemma py_max_spec (xs : list Z) :
  xs <> [] ->
  exists r, py_max xs = Some r /\ r ∈ xs /\ Forall (fun y => y <= r) xs.
Proof.
  destruct xs as [|x xs]; [congruence|]. intros _.
  destruct (fold_max_spec xs x) as (Hmem & Hle & Hall).
  exists (fold_left Z.max xs x). cbn. repeat split.
  - apply elem_of_cons. destruct Hmem as [->|Hin]; [now left | now right].
  - constructor; assumption.
Qed.

Lemma max_rank_spec (bs : list string) :
  bs <> [] ->
  max_rank bs ∈ bloom_rank <$> bs
  /\ Forall (fun y => y <= max_rank bs) (bloom_rank <$> bs).
Proof.
  assert (Hpos : forall b, 1 <= bloom_rank b).
  { intros b. unfold bloom_rank.
    repeat match goal with
           | |- context [decide ?P] => destruct (decide P)
           end; lia. }
  induction bs as [|b bs IH]; [congruence|]. intros _.
  cbn [max_rank foldr fmap list_fmap]. fold (max_rank bs).
  destruct bs as [|b' bs].
  - cbn. specialize (Hpos b). rewrite Z.max_l by lia.
    split; [apply elem_of_cons; now left | repeat constructor; lia].
  - destruct IH as [Hin Hall]; [congruence|].
    set (m := max_rank (b' :: bs)) in *.
    split.
    + apply elem_of_cons.
      destruct (Z.max_spec (bloom_rank b) m) as [[_ ->]|[_ ->]];
        [now right | now left].
    + constructor; [lia|].
      eapply Forall_impl; [exact Hall|]. cbn. intros; lia.
Qed.

(** The dict literal of [determine_proficiency_levels], read with the
    default 3, is the rank. *)
Lemma blooms_hierarchy_rank b :
  default 3 (blooms_hierarchy !! b) = bloom_rank b.
Proof.
  unfold bloom_rank.
  repeat match goal with
         | |- context [decide (b = ?x)] =>
             destruct (decide (b = x)) as [->|?]; [reflexivity|]
         end.
  unfold blooms_hierarchy. cbn [list_to_map foldr fst snd].
  rewrite !lookup_insert_ne by congruence.
  now rewrite lookup_empty.
Qed.

Lemma determine_proficiency_levels_spec (bs : list string) :
  bs <> [] ->
  determine_proficiency_levels (list_to_set bs)
  = Some (proficiency_of_rank (max_rank bs)).
Proof.
  intros Hne. unfold determine_proficiency_levels.
  set (el := elements (list_to_set bs : gset string)).
  assert (Hel : forall b, b ∈ el <-> b ∈ bs).
  { intros b. unfold el. now rewrite elem_of_elements, elem_of_list_to_set. }
  assert (Hext : (fun b => default 3 (blooms_hierarchy !! b)) <$> el
                 = bloom_rank <$> el).
  { apply Forall_fmap_ext, Forall_forall. intros b _.
    apply blooms_hierarchy_rank. }
  rewrite Hext.
  destruct (py_max_spec (bloom_rank <$> el)) as (r & -> & Hin & Hall).
  { destruct bs as [|b bs]; [congruence|].
    assert (Hb : b ∈ el) by (apply Hel, elem_of_cons; now left).
    destruct el; [inversion Hb | discriminate]. }
  destruct (max_rank_spec bs Hne) as [Hin' Hall'].
  assert (Hr : r = max_rank bs); [|now rewrite Hr].
  rewrite Forall_forall in Hall, Hall'.
  apply list_elem_of_fmap in Hin as (b & -> & Hb).
  apply list_elem_of_fmap in Hin' as (b' & Hb'eq & Hb').
  apply Z.le_antisymm.
  - apply Hall'. apply list_elem_of_fmap. exists b. split; [reflexivity|].
    now apply Hel.
  - rewrite Hb'eq. apply Hall. apply list_elem_of_fmap. exists b'.
    split; [reflexivity|]. now apply Hel.
Qed.

(** The consolidator never fails, and its result is the consolidated record
    of each distinct name, in first-seen order. *)
Lemma consolidate_spec skills :
  consolidate_similar_skills skills
  = Some (consolidated_of skills <$> first_seen (name_of <$> skills)).
Proof.
  unfold consolidate_similar_skills. cbv zeta. rewrite skill_map_spec.
  apply mapM_Some, Forall2_fmap, Forall_Forall2_diag, Forall_forall.
  intros n Hn. cbn [e_blooms e_modules].
  rewrite determine_proficiency_levels_spec; [reflexivity|].
  rewrite elem_of_first_seen in Hn.
  intros Hnil. apply fmap_nil_inv in Hnil.
  exact (members_nonempty name_of n skills Hn Hnil).
Qed.

Lemma max_rank_cons b bs :
  max_rank (b :: bs) = Z.max (bloom_rank b) (max_rank bs).
Proof. reflexivity. Qed.

Lemma max_rank_nonneg bs : 0 <= max_rank bs.
Proof.
  induction bs as [|b bs IH]; [reflexivity|]. rewrite max_rank_cons. lia.
Qed.

Lemma max_rank_upper b bs : b ∈ bs -> bloom_rank b <= max_rank bs.
Proof.
  induction bs as [|b' bs IH]; intros Hin; [inversion Hin|].
  rewrite max_rank_cons.
  apply elem_of_cons in Hin as [->|Hin]; [lia|].
  specialize (IH Hin). lia.
Qed.

Lemma max_rank_le bs bs' :
  (forall b, b ∈ bs -> b ∈ bs') -> max_rank bs <= max_rank bs'.
Proof.
  induction bs as [|b bs IH]; intros Hsub; [apply max_rank_nonneg|].
  rewrite max_rank_cons. apply Z.max_lub.
  - apply max_rank_upper, Hsub, elem_of_cons. now left.
  - apply IH. intros b' Hb'. apply Hsub, elem_of_cons. now right.
Qed.

Lemma determine_proficiency_levels_elements (S : gset string) :
  S <> ∅ ->
  determine_proficiency_levels S
  = Some (proficiency_of_rank (max_rank (elements S))).
Proof.
  intros Hne. rewrite <- (list_to_set_elements_L S) at 1.
  apply determine_proficiency_levels_spec.
  intros Hnil. apply Hne. apply leibniz_equiv.
  now apply elements_empty_iff.
Qed.

Lemma max_rank_same bs bs' :
  (forall b, b ∈ bs <-> b ∈ bs') -> max_rank bs = max_rank bs'.
Proof.
  intros H. apply Z.le_antisymm; apply max_rank_le; intros b; apply H.
Qed.

(** In the set, an unrecognised level weighs as Apply does. *)
Lemma determine_proficiency_levels_unrecognised b (S : gset string) :
  b ∉ bloom_names ->
  determine_proficiency_levels ({[ b ]} ∪ S)
  = determine_proficiency_levels ({[ "Apply" ]} ∪ S).
Proof.
  intros Hb.
  assert (Hrank : bloom_rank b = bloom_rank "Apply").
  { unfold bloom_rank at 1.
    repeat match goal with
           | |- context [decide (b = ?x)] =>
               destruct (decide (b = x)) as [->|?];
                 [exfalso; apply Hb; unfold bloom_names;
                  rewrite !elem_of_cons; tauto|]
           end.
    reflexivity. }
  assert (Hcons : forall x : string,
             max_rank (elements ({[ x ]} ∪ S))
             = Z.max (bloom_rank x) (max_rank (elements S))).
  { intros x. rewrite <- max_rank_cons. apply max_rank_same. intros y.
    rewrite elem_of_cons, !elem_of_elements, elem_of_union,
      elem_of_singleton. tauto. }
  rewrite !determine_proficiency_levels_elements.
  - now rewrite !Hcons, Hrank.
  - intros H. apply (not_elem_of_empty (C := gset string) "Apply").
    rewrite <- H. apply elem_of_union. left. now apply elem_of_singleton.
  - intros H. apply (not_elem_of_empty (C := gset string) b).
    rewrite <- H. apply elem_of_union. left. now apply elem_of_singleton.
Qed.

Lemma elem_of_group s n skills :
  s ∈ group n skills <-> name_of s = n /\ s ∈ skills.
Proof. unfold group, members. now rewrite list_elem_of_filter. Qed.

Lemma elem_of_observed {B} (f : Skill -> B) n skills x :
  x ∈ f <$> group n skills
  <-> exists s, s ∈ skills /\ name_of s = n /\ f s = x.
Proof.
  rewrite list_elem_of_fmap. split.
  - intros (s & -> & Hs). apply elem_of_group in Hs as [Hn Hs]. eauto.
  - intros (s & Hs & Hn & <-). exists s. split; [reflexivity|].
    now apply elem_of_group.
Qed.

Lemma elem_of_sorted_observed (f : Skill -> string) n skills x :
  x ∈ sorted (list_to_set (f <$> group n skills))
  <-> exists s, s ∈ skills /\ name_of s = n /\ f s = x.
Proof.
  destruct (sorted_spec (list_to_set (f <$> group n skills))) as (_ & _ & H).
  rewrite H, elem_of_list_to_set. apply elem_of_observed.
Qed.

Lemma group_nonempty n skills :
  n ∈ name_of <$> skills -> blooms_of <$> group n skills <> [].
Proof.
  intros Hn Hnil. apply fmap_nil_inv in Hnil.
  exact (members_nonempty name_of n skills Hn Hnil).
Qed.

(** Every record is covered by the consolidated record of its name. *)
Lemma consolidated_covers skills s :
  s ∈ skills ->
  consolidated_of skills (name_of s)
    ∈ consolidated_of skills <$> first_seen (name_of <$> skills)
  /\ module_of s ∈ appears_in_modules (consolidated_of skills (name_of s))
  /\ blooms_of s ∈ bloom_levels (consolidated_of skills (name_of s)).
Proof.
  intros Hs. split; [|split].
  - apply list_elem_of_fmap_2, elem_of_first_seen.
    now apply list_elem_of_fmap_2.
  - cbn. apply elem_of_sorted_observed. eauto.
  - cbn. apply elem_of_sorted_observed. eauto.
Qed.

End Consolidator.

(** C4. The consolidator groups the records by their exact skill name and
    returns one consolidated record per distinct name, in the order in which
    the names first occur; in each, [appears_in_modules] lists the module
    codes of the group ascending and once each, and [bloom_levels] lists the
    Bloom levels of the group ascending and once each. *)
Theorem consolidator_groups_by_name (skills : list Skill) :
  exists out,
    consolidate_similar_skills skills = Some out
    /\ cs_name <$> out = first_seen (name_of <$> skills)
    /\ NoDup (cs_name <$> out)
    /\ (forall n, n ∈ cs_name <$> out <-> n ∈ name_of <$> skills)
    /\ Forall
         (fun c =>
            StronglySorted String.le (appears_in_modules c)
            /\ NoDup (appears_in_modules c)
            /\ (forall m,
                  m ∈ appears_in_modules c
                  <-> exists s,
                      s ∈ skills /\ name_of s = cs_name c /\ module_of s = m)
            /\ StronglySorted String.le (bloom_levels c)
            /\ NoDup (bloom_levels c)
            /\ (forall b,
                  b ∈ bloom_levels c
                  <-> exists s,
                      s ∈ skills /\ name_of s = cs_name c /\ blooms_of s = b))
         out.
Proof.
  eexists. split; [apply consolidate_spec|].
  assert (Hnames : cs_name <$> (consolidated_of skills
                                  <$> first_seen (name_of <$> skills))
                   = first_seen (name_of <$> skills)).
  { rewrite <- list_fmap_compose. apply list_fmap_id. }
  rewrite Hnames. split; [reflexivity|].
  split; [apply NoDup_first_seen|].
  split; [intros n; apply elem_of_first_seen|].
  apply Forall_fmap, Forall_forall. intros n _. cbn.
  pose proof (sorted_spec (list_to_set (module_of <$> group n skills)))
    as (Hs1 & Hn1 & He1).
  pose proof (sorted_spec (list_to_set (blooms_of <$> group n skills)))
    as (Hs2 & Hn2 & He2).
  split; [exact Hs1|]. split; [exact Hn1|].
  split; [intros m; apply elem_of_sorted_observed|].
  split; [exact Hs2|]. split; [exact Hn2|].
  intros b. apply elem_of_sorted_observed.
Qed.

Lemma consolidator_groups_by_name_witness :
  exists out,
    consolidate_similar_skills
      [observed "Testing" "COMP201" "Analyze";
       observed "Design" "COMP101" "Create";
       observed "Testing" "COMP101" "Apply"] = Some out
    /\ cs_name <$> out = ["Testing"; "Design"].
Proof.
  destruct (consolidator_groups_by_name
              [observed "Testing" "COMP201" "Analyze";
               observed "Design" "COMP101" "Create";
               observed "Testing" "COMP101" "Apply"])
    as (out & Hout & Hnames & _).
  exists out. split; [exact Hout|]. rewrite Hnames. reflexivity.
Defined.

(** C3. Every skill name of the input has its consolidated record, and the
    proficiency levels of a consolidated record depend only on the
    greatest Bloom rank observed in its group (Remember=1 ... Create=6): at
    most 2 gives Beginner; above 2 and at most 4 gives Beginner,
    Intermediate; 5 or more gives Beginner, Intermediate, Advanced.  A skill
    seen in modules COMP101 and COMP201 with Bloom levels Apply and Analyze
    gets Beginner, Intermediate and the modules COMP101, COMP201. *)
Theorem proficiency_from_max_rank (skills : list Skill) :
  bloom_rank <$> bloom_names = [1; 2; 3; 4; 5; 6]
  /\ exists out,
      consolidate_similar_skills skills = Some out
      /\ cs_name <$> out = first_seen (name_of <$> skills)
      /\ Forall
           (fun c =>
              (max_rank (blooms_of <$> group (cs_name c) skills)
                 ∈ bloom_rank <$> (blooms_of <$> group (cs_name c) skills)
               /\ Forall
                    (fun r =>
                       r <= max_rank (blooms_of <$> group (cs_name c) skills))
                    (bloom_rank <$> (blooms_of <$> group (cs_name c) skills)))
              /\ (max_rank (blooms_of <$> group (cs_name c) skills) <= 2 ->
                  proficiency_levels c = ["Beginner"])
              /\ (2 < max_rank (blooms_of <$> group (cs_name c) skills) <= 4 ->
                  proficiency_levels c = ["Beginner"; "Intermediate"])
              /\ (5 <= max_rank (blooms_of <$> group (cs_name c) skills) ->
                  proficiency_levels c
                  = ["Beginner"; "Intermediate"; "Advanced"])
              /\ ((forall m,
                     m ∈ module_of <$> group (cs_name c) skills
                     <-> m = "COMP101" \/ m = "COMP201") ->
                  (forall b,
                     b ∈ blooms_of <$> group (cs_name c) skills
                     <-> b = "Apply" \/ b = "Analyze") ->
                  proficiency_levels c = ["Beginner"; "Intermediate"]
                  /\ appears_in_modules c = ["COMP101"; "COMP201"]))
           out.
Proof.
  split; [reflexivity|].
  eexists. split; [apply consolidate_spec|].
  split; [rewrite <- list_fmap_compose; apply list_fmap_id|].
  apply Forall_fmap, Forall_forall. intros n Hn. cbn.
  rewrite elem_of_first_seen in Hn.
  pose proof (max_rank_spec _ (group_nonempty n skills Hn)) as [Hin Hall].
  set (bs := blooms_of <$> group n skills) in *.
  split; [split; assumption|].
  unfold proficiency_of_rank.
  split; [|split; [|split]].
  - intros H. now rewrite (proj2 (Z.leb_le _ _)) by lia.
  - intros H. rewrite (proj2 (Z.leb_gt _ _)) by lia.
    now rewrite (proj2 (Z.leb_le _ _)) by lia.
  - intros H. now rewrite !(proj2 (Z.leb_gt _ _)) by lia.
  - intros Hm Hb. split.
    + assert (Hmax : max_rank bs = 4).
      { apply Z.le_antisymm.
        - apply list_elem_of_fmap in Hin as (b & -> & Hb').
          apply Hb in Hb' as [-> | ->]; vm_compute; discriminate.
        - rewrite Forall_forall in Hall.
          apply (Hall (bloom_rank "Analyze")).
          apply list_elem_of_fmap_2, Hb. now right. }
      now rewrite Hmax.
    + assert (Hset : (list_to_set (module_of <$> group n skills)
                      : gset string) = {[ "COMP101"; "COMP201" ]}).
      { apply set_eq. intros m. rewrite elem_of_list_to_set, Hm.
        rewrite elem_of_union, !elem_of_singleton. reflexivity. }
      rewrite Hset. reflexivity.
Qed.

Lemma proficiency_from_max_rank_witness :
  exists out,
    consolidate_similar_skills programming_records = Some out
    /\ cs_name <$> out = ["Programming"]
    /\ Forall (fun c =>
                 proficiency_levels c = ["Beginner"; "Intermediate"]
                 /\ appears_in_modules c = ["COMP101"; "COMP201"])
              out.
Proof.
  destruct (proj2 (proficiency_from_max_rank programming_records))
    as (out & Hout & Hfirst & Hall).
  change (first_seen (name_of <$> programming_records))
    with ["Programming"] in Hfirst.
  exists out. split; [exact Hout|]. split; [exact Hfirst|].
  assert (Hnames : Forall (fun c => cs_name c = "Programming") out).
  { apply Forall_forall. intros c Hc.
    apply (list_elem_of_fmap_2 cs_name) in Hc. rewrite Hfirst in Hc.
    now apply list_elem_of_singleton in Hc. }
  rewrite Forall_forall in Hall, Hnames. apply Forall_forall. intros c Hc.
  destruct (Hall c Hc) as (_ & _ & _ & _ & Hscenario).
  rewrite (Hnames c Hc) in Hscenario. apply Hscenario.
  - intros m. change (module_of <$> group "Programming" programming_records)
      with ["COMP201"; "COMP101"].
    rewrite !elem_of_cons, elem_of_nil. tauto.
  - intros b. change (blooms_of <$> group "Programming" programming_records)
      with ["Analyze"; "Apply"].
    rewrite !elem_of_cons, elem_of_nil. tauto.
Defined.

(** C10. The consolidator returns a result for any records, also those with
    missing fields, with a record for every name: a record without skill
    name, module or Bloom level is grouped and listed under "Unknown" for
    that field.  In deriving proficiency a Bloom level outside the six names
    weighs as rank 3, the rank of Apply: [determine_proficiency_levels]
    gives the same for such a level as for Apply, whatever else is in the
    set; the rank is the lookup in [blooms_hierarchy] with default 3; the
    proficiency of every consolidated record is that of the greatest rank
    of its group with such levels ranked 3, so a group whose Bloom levels
    are all outside the six names gets Beginner, Intermediate. *)
Theorem consolidator_defaults (skills : list Skill) :
  (forall b (S : gset string),
     b ∉ bloom_names ->
     determine_proficiency_levels ({[ b ]} ∪ S)
     = determine_proficiency_levels ({[ "Apply" ]} ∪ S))
  /\ (forall b bs,
        determine_proficiency_levels (list_to_set (b :: bs))
        = Some (proficiency_of_rank (max_rank (b :: bs))))
  /\ (forall b,
        default 3 (blooms_hierarchy !! b) = bloom_rank b
        /\ (b ∉ bloom_names -> bloom_rank b = 3))
  /\ exists out,
      consolidate_similar_skills skills = Some out
      /\ cs_name <$> out = first_seen (name_of <$> skills)
      /\ (forall s, s ∈ skills ->
            exists c,
              c ∈ out
              /\ (skill_name s = None -> cs_name c = "Unknown")
              /\ (forall n, skill_name s = Some n -> cs_name c = n)
              /\ (module s = None -> "Unknown" ∈ appears_in_modules c)
              /\ (blooms_level s = None -> "Unknown" ∈ bloom_levels c))
      /\ Forall
           (fun c =>
              proficiency_levels c
              = proficiency_of_rank
                  (max_rank (blooms_of <$> group (cs_name c) skills)))
           out
      /\ Forall
           (fun c =>
              (forall s, s ∈ skills -> name_of s = cs_name c ->
                         blooms_of s ∉ bloom_names) ->
              proficiency_levels c = ["Beginner"; "Intermediate"])
           out.
Proof.
  assert (Hrank : forall b, b ∉ bloom_names -> bloom_rank b = 3).
  { intros b Hb. unfold bloom_rank.
    repeat match goal with
           | |- context [decide (b = ?x)] =>
               destruct (decide (b = x)) as [->|?];
                 [exfalso; apply Hb; unfold bloom_names;
                  rewrite !elem_of_cons; tauto|]
           end.
    reflexivity. }
  split; [intros b S Hb; now apply determine_proficiency_levels_unrecognised|].
  split; [intros b bs; now apply determine_proficiency_levels_spec|].
  split; [intros b; split; [apply blooms_hierarchy_rank | apply Hrank]|].
  eexists. split; [apply consolidate_spec|].
  split; [rewrite <- list_fmap_compose; apply list_fmap_id|].
  split; [|split].
  - intros s Hs.
    destruct (consolidated_covers skills s Hs) as (Hc & Hm & Hb).
    exists (consolidated_of skills (name_of s)).
    split; [exact Hc|]. unfold name_of, module_of, blooms_of in *.
    repeat split.
    + intros Hnone. cbn. now rewrite Hnone.
    + intros n Hsome. cbn. now rewrite Hsome.
    + intros Hnone. now rewrite Hnone in Hm.
    + intros Hnone. now rewrite Hnone in Hb.
  - apply Forall_fmap, Forall_forall. intros n _. reflexivity.
  - apply Forall_fmap, Forall_forall. intros n Hn. cbn. intros Hunk.
    rewrite elem_of_first_seen in Hn.
    pose proof (max_rank_spec _ (group_nonempty n skills Hn)) as [Hin _].
    apply list_elem_of_fmap in Hin as (b & Hmax & Hb).
    apply elem_of_observed in Hb as (s & Hs & Hname & Hbs).
    rewrite Hmax, (Hrank b); [reflexivity|].
    rewrite <- Hbs. now apply Hunk.
Qed.

Lemma consolidator_defaults_witness :
  (exists out,
     consolidate_similar_skills [blank_record] = Some out
     /\ cs_name <$> out = ["Unknown"]
     /\ (exists c,
           c ∈ out /\ cs_name c = "Unknown"
           /\ "Unknown" ∈ appears_in_modules c
           /\ "Unknown" ∈ bloom_levels c)
     /\ Forall (fun c => proficiency_levels c = ["Beginner"; "Intermediate"])
               out)
  /\ (exists out,
        consolidate_similar_skills mixed_records = Some out
        /\ cs_name <$> out = ["Design"]
        /\ Forall (fun c =>
                     proficiency_levels c = ["Beginner"; "Intermediate"])
                  out)
  /\ determine_proficiency_levels ({[ "Mastery" ]} ∪ {[ "Remember" ]})
     = determine_proficiency_levels ({[ "Apply" ]} ∪ {[ "Remember" ]}).
Proof.
  assert (Hunknown : forall b : string,
             b = "Unknown" \/ b = "Mastery" -> b ∉ bloom_names).
  { intros b Hb. unfold bloom_names. rewrite !elem_of_cons, elem_of_nil.
    intros [E|[E|[E|[E|[E|[E|[]]]]]]]; destruct Hb as [-> | ->];
      discriminate E. }
  split; [|split].
  - destruct (proj2 (proj2 (proj2 (consolidator_defaults [blank_record]))))
      as (out & Hout & Hfirst & Hcov & _ & Hprof).
    exists out. split; [exact Hout|]. split; [exact Hfirst|]. split.
    + destruct (Hcov blank_record) as (c & Hc & Hn & _ & Hm & Hb);
        [apply elem_of_cons; now left|].
      exists c. split; [exact Hc|].
      split; [now apply Hn|]. split; [now apply Hm | now apply Hb].
    + eapply Forall_impl; [exact Hprof|]. cbn. intros c H. apply H.
      intros s Hs _. apply list_elem_of_singleton in Hs. subst s.
      apply Hunknown. now left.
  - destruct (proj2 (proj2 (proj2 (consolidator_defaults mixed_records))))
      as (out & Hout & Hfirst & _ & Heq & _).
    change (first_seen (name_of <$> mixed_records)) with ["Design"] in Hfirst.
    exists out. split; [exact Hout|]. split; [exact Hfirst|].
    rewrite Forall_forall in Heq. apply Forall_forall. intros c Hc.
    rewrite (Heq c Hc).
    assert (Hname : cs_name c = "Design").
    { apply (list_elem_of_fmap_2 cs_name) in Hc. rewrite Hfirst in Hc.
      now apply list_elem_of_singleton in Hc. }
    rewrite Hname. reflexivity.
  - apply (proj1 (consolidator_defaults [])). apply Hunknown. now right.
Defined.

(** ** Taxonomy builder *)

Section Builder.

Lemma append_fold (l acc : list Skill) :
  fold_left (fun bucket s => bucket ++ [s]) l acc = acc ++ l.
Proof.
  revert acc. induction l as [|s l IH]; intros acc; cbn.
  - now rewrite app_nil_r.
  - now rewrite IH, <- app_assoc.
Qed.

Lemma bucket_members c t l :
  members type_of t (members category_of c l) = bucket c t l.
Proof.
  unfold members, bucket. rewrite list_filter_filter.
  apply list_filter_iff. intros s. tauto.
Qed.

(** The nested dict the first loop of the builder leaves. *)
Lemma taxonomy_tree_spec (all_skills : list Skill) :
  fold_left
    (fun taxonomy_tree skill =>
       let category := default "General" (category skill) in
       let skill_type := default "General" (skill_type skill) in
       touch [] (touch [] (fun bucket => bucket ++ [skill]) skill_type)
             category taxonomy_tree)
    all_skills []
  = (fun c =>
       (c, (fun t => (t, bucket c t all_skills)) <$> types_in c all_skills))
      <$> first_seen (category_of <$> all_skills).
Proof.
  erewrite fold_left_ext.
  - rewrite (group_by_first_seen category_of []
               (fun s => touch [] (fun b => b ++ [s]) (type_of s))).
    apply Forall_fmap_ext, Forall_forall. intros c _. f_equal.
    unfold gathered at 1.
    rewrite (group_by_first_seen type_of [] (fun s b => b ++ [s])).
    apply Forall_fmap_ext, Forall_forall. intros t _. f_equal.
    unfold gathered. now rewrite append_fold, bucket_members.
  - intros d s. reflexivity.
Qed.

(** The builder never fails, and its result is the domain of each category
    in first-encounter order. *)
Lemma build_spec (all_skills : list Skill) :
  build_taxonomy_structure all_skills
  = Some {| domains :=
              domain_of all_skills
                <$> first_seen (category_of <$> all_skills) |}.
Proof.
  unfold build_taxonomy_structure. cbv zeta. rewrite taxonomy_tree_spec.
  match goal with
  | |- mapM ?F ?l ≫= _ = _ =>
      assert (Hdom : mapM F l
                     = Some (domain_of all_skills
                               <$> first_seen (category_of <$> all_skills)))
  end.
  { apply mapM_Some, Forall2_fmap, Forall_Forall2_diag, Forall_forall.
    intros c _. cbn beta iota.
    match goal with
    | |- mapM ?G ?l ≫= _ = _ =>
        assert (Hsub : mapM G l
                       = Some (sub_category_of all_skills c
                                 <$> types_in c all_skills))
    end.
    { apply mapM_Some, Forall2_fmap, Forall_Forall2_diag, Forall_forall.
      intros t _. cbn beta iota. now rewrite consolidate_spec. }
    now rewrite Hsub. }
  now rewrite Hdom.
Qed.

End Builder.

(** C5. The builder groups the skills by category and, within a category, by
    skill type, both in first-encounter order; the skills of a sub-category
    are the consolidator's result on the records of exactly that category
    and skill type; a domain is described as "{category} competencies" and a
    sub-category as "{skill_type} skills in {category} category". *)
Theorem builder_two_level_grouping (all_skills : list Skill) :
  exists taxonomy,
    build_taxonomy_structure all_skills = Some taxonomy
    /\ dom_name <$> domains taxonomy
       = first_seen (category_of <$> all_skills)
    /\ Forall
         (fun d =>
            dom_description d = dom_name d +:+ " competencies"
            /\ sub_name <$> sub_categories d
               = first_seen
                   (type_of
                      <$> filter (fun s => category_of s = dom_name d)
                                 all_skills)
            /\ Forall
                 (fun sc =>
                    sub_description sc
                    = sub_name sc +:+ " skills in " +:+ dom_name d
                               +:+ " category"
                    /\ consolidate_similar_skills
                         (filter (fun s => category_of s = dom_name d
                                           /\ type_of s = sub_name sc)
                                 all_skills)
                       = Some (skills sc))
                 (sub_categories d))
         (domains taxonomy).
Proof.
  eexists. split; [apply build_spec|]. cbn [domains]. split.
  - rewrite <- list_fmap_compose. apply list_fmap_id.
  - apply Forall_fmap, Forall_forall. intros c _. cbn.
    split; [reflexivity|]. split.
    + rewrite <- list_fmap_compose. apply list_fmap_id.
    + apply Forall_fmap, Forall_forall. intros t _. cbn.
      split; [reflexivity|]. apply consolidate_spec.
Qed.

Lemma builder_two_level_grouping_witness :
  exists taxonomy,
    build_taxonomy_structure
      (extract_skills_from_outcome
         "Understand the architecture of a modern CPU." 1 "COMP101")
    = Some taxonomy
    /\ dom_name <$> domains taxonomy = ["Cognitive"; "Domain-Specific"].
Proof.
  destruct (builder_two_level_grouping
              (extract_skills_from_outcome
                 "Understand the architecture of a modern CPU." 1 "COMP101"))
    as (taxonomy & Hbuild & Hnames & _).
  exists taxonomy. split; [exact Hbuild|]. rewrite Hnames. reflexivity.
Defined.

(** ** Worked scenarios *)

Section Scenarios.

(** A verb of a list that occurs in the raw outcome is found in the
    lower-cased text as well, the verbs being lower case. *)
Lemma any_in_lower verbs outcome :
  Forall (fun w => Str.lower w = w) verbs ->
  any_in verbs outcome = true ->
  any_in verbs (Str.lower outcome) = true.
Proof.
  unfold any_in. intros Hlow Hany.
  apply existsb_exists in Hany as (w & Hw & Hin).
  apply existsb_exists. exists w. split; [exact Hw|].
  rewrite Forall_forall in Hlow.
  rewrite <- (Hlow w) by (now apply list_elem_of_In).
  now apply contains_lower.
Qed.

Lemma remember_verb_in_raw_text outcome :
  any_in remember_verbs outcome = true ->
  determine_blooms_level (Str.lower outcome) = "Remember".
Proof.
  intros H. apply (any_in_lower remember_verbs) in H;
    [|repeat constructor].
  unfold determine_blooms_level. unfold remember_verbs in H. now rewrite H.
Qed.

(** Scenario 1: "write" is an Apply verb and no Remember or Understand verb
    occurs. *)
Example scenario_write_and_debug :
  map (fun s => (category s, skill_type s, blooms_level s))
      (extract_skills_from_outcome
         "Write and debug programs in a high-level language." 1 "COMP101")
  = [ (Some "Technical", Some "Programming", Some "Apply");
      (Some "Technical", Some "Testing & Debugging", Some "Apply") ].
Proof. vm_compute. reflexivity. Qed.

(** Scenario 2: two rules fire, and the Bloom level is Understand. *)
Example scenario_understand_architecture :
  map (fun s => (category s, skill_type s, blooms_level s))
      (extract_skills_from_outcome
         "Understand the architecture of a modern CPU." 1 "COMP101")
  = [ (Some "Cognitive", Some "Comprehension", Some "Understand");
      (Some "Domain-Specific", Some "Computer Architecture",
       Some "Understand") ].
Proof. vm_compute. reflexivity. Qed.

(** Scenario 3, evaluated. *)
Example scenario_programming_records :
  consolidate_similar_skills programming_records
  = Some [ {| cs_name := "Programming";
              proficiency_levels := ["Beginner"; "Intermediate"];
              appears_in_modules := ["COMP101"; "COMP201"];
              bloom_levels := ["Analyze"; "Apply"] |} ].
Proof. vm_compute. reflexivity. Qed.

(** Scenario 4: the module without outcomes is dropped. *)
Example scenario_empty_module :
  let r := analyze_learning_outcomes_direct
             [orientation_module; architecture_module] in
  map base (modules r) = [architecture_module]
  /\ total_modules r = 1%nat /\ total_skills r = 2%nat.
Proof. vm_compute. repeat split. Qed.

(** Names that differ only in case are different groups. *)
Example names_are_case_sensitive :
  cs_name <$> default []
    (consolidate_similar_skills
       [ observed "Testing" "COMP101" "Apply";
         observed "testing" "COMP101" "Apply" ])
  = ["Testing"; "testing"].
Proof. vm_compute. reflexivity. Qed.

(** The three cases of the main skill name. *)
Example main_skill_short :
  extract_main_skill "  Use a debugger.  " "Programming" = "Use a debugger.".
Proof. vm_compute. reflexivity. Qed.

Example main_skill_first_clause :
  extract_main_skill
    "Design small programs; test them, and document the results in a report"
    "Programming"
  = "Design small programs".
Proof. vm_compute. reflexivity. Qed.

Example main_skill_context :
  extract_main_skill
    "Explain how a compiler translates a program written in a high-level language into machine code"
    "Programming"
  = "Programming - Explain how a compiler translates a prog...".
Proof. vm_compute. reflexivity. Qed.

End Scenarios.

(** * Further properties of the code *)

(** ** Keywords and the classifier's records *)

Section ClassifierRecords.

Lemma extract_keywords_loop text candidates acc :
  fold_left (fun keywords keyword =>
               if Str.contains keyword text then keywords ++ [keyword]
               else keywords)
            candidates acc
  = acc ++ List.filter (fun k => Str.contains k text) candidates.
Proof.
  revert acc. induction candidates as [|k ks IH]; intros acc; cbn.
  - now rewrite app_nil_r.
  - rewrite IH. destruct (Str.contains k text); [|reflexivity].
    now rewrite <- app_assoc.
Qed.

Lemma extract_keywords_filter text candidates :
  extract_keywords text candidates
  = List.filter (fun k => Str.contains k text) candidates.
Proof. unfold extract_keywords. now rewrite extract_keywords_loop. Qed.

Lemma list_filter_sublist {A} (f : A -> bool) l :
  sublist (List.filter f l) l.
Proof.
  induction l as [|x l IH]; cbn; [constructor|].
  destruct (f x); now constructor.
Qed.

(** The rules that fire, as a filter of the table. *)
Lemma fired_records_filter outcome module_code :
  fired_records outcome module_code
  = rule_record outcome module_code
      <$> List.filter (fun r => any_in (cues r) (Str.lower outcome)) rules.
Proof.
  unfold fired_records. induction rules as [|r rs IH]; cbn; [reflexivity|].
  rewrite IH. now destruct (any_in (cues r) (Str.lower outcome)).
Qed.

Lemma extract_skills_cases outcome level module_code :
  (fired_records outcome module_code = []
   /\ extract_skills_from_outcome outcome level module_code
      = [fallback_record outcome module_code])
  \/ (fired_records outcome module_code <> []
      /\ extract_skills_from_outcome outcome level module_code
         = fired_records outcome module_code).
Proof.
  rewrite extract_skills_by_rules. unfold classify_by_rules.
  destruct (fired_records outcome module_code); [left | right]; easy.
Qed.

(** A property of the fallback record and of the record of every rule holds
    of every record the classifier returns. *)
Lemma extract_skills_Forall (P : Skill -> Prop) outcome level module_code :
  P (fallback_record outcome module_code) ->
  Forall (fun r => P (rule_record outcome module_code r)) rules ->
  Forall P (extract_skills_from_outcome outcome level module_code).
Proof.
  intros Hfb Hrules.
  destruct (extract_skills_cases outcome level module_code)
    as [[_ ->]|[_ ->]]; [now repeat constructor|].
  rewrite fired_records_filter. apply Forall_fmap, Forall_forall.
  intros r Hr. rewrite Forall_forall in Hrules. apply Hrules.
  apply list_elem_of_In. apply list_elem_of_In, filter_In in Hr. tauto.
Qed.

Lemma str_length_app a b :
  String.length (a +:+ b) = (String.length a + String.length b)%nat.
Proof.
  induction a as [|c a IH]; [reflexivity|].
  rewrite str_app_cons. cbn. now rewrite IH.
Qed.

Lemma fmap_NoDup_inj {A B} (f : A -> B) (l : list A) :
  NoDup (f <$> l) -> forall x y, x ∈ l -> y ∈ l -> f x = f y -> x = y.
Proof.
  induction l as [|a l IH]; intros Hnd x y Hx Hy Hxy; [inversion Hx|].
  rewrite fmap_cons in Hnd. apply NoDup_cons in Hnd as [Ha Hnd].
  apply elem_of_cons in Hx as [->|Hx]; apply elem_of_cons in Hy as [->|Hy].
  - reflexivity.
  - exfalso. apply Ha. rewrite Hxy. now apply list_elem_of_fmap_2.
  - exfalso. apply Ha. rewrite <- Hxy. now apply list_elem_of_fmap_2.
  - now apply IH.
Qed.

End ClassifierRecords.

(** X1. [extract_keywords] returns exactly the candidates that occur in the
    text, each as often and in the order the candidate list has it. *)
Theorem extract_keywords_are_matching_candidates
  (text : string) (candidates : list string) :
  extract_keywords text candidates
  = List.filter (fun k => Str.contains k text) candidates
  /\ sublist (extract_keywords text candidates) candidates
  /\ forall k,
      k ∈ extract_keywords text candidates
      <-> k ∈ candidates /\ Str.contains k text = true.
Proof.
  rewrite extract_keywords_filter. split; [reflexivity|].
  split; [apply list_filter_sublist|].
  intros k. rewrite !list_elem_of_In, filter_In. tauto.
Qed.

(** X2. One outcome gives at most eight records, no two of them with the
    same skill type; they are the records of exactly the rules that fire, in
    the order of the rules, or the fallback record alone when no rule
    fires. *)
Theorem classifier_records_follow_rule_order
  (outcome : string) (level : Z) (module_code : string) :
  (length (extract_skills_from_outcome outcome level module_code) <= 8)%nat
  /\ NoDup (skill_type
              <$> extract_skills_from_outcome outcome level module_code)
  /\ Forall
       (fun r =>
          rule_record outcome module_code r
            ∈ extract_skills_from_outcome outcome level module_code
          <-> any_in (cues r) (Str.lower outcome) = true)
       rules
  /\ ((List.filter (fun r => any_in (cues r) (Str.lower outcome)) rules = []
       /\ extract_skills_from_outcome outcome level module_code
          = [fallback_record outcome module_code])
      \/ (List.filter (fun r => any_in (cues r) (Str.lower outcome)) rules
            <> []
          /\ extract_skills_from_outcome outcome level module_code
             = rule_record outcome module_code
                 <$> List.filter
                       (fun r => any_in (cues r) (Str.lower outcome))
                       rules)).
Proof.
  pose proof (list_filter_sublist
                (fun r => any_in (cues r) (Str.lower outcome)) rules)
    as Hsub.
  assert (Htypes : NoDup (rule_type <$> rules))
    by (apply (bool_decide_unpack _); vm_compute; exact I).
  assert (Hgeneral : Forall (fun r => rule_type r <> "General Competency")
                            rules)
    by (repeat constructor; discriminate).
  destruct (extract_skills_cases outcome level module_code)
    as [[Hnone ->]|[Hsome ->]]; rewrite fired_records_filter in *.
  - apply fmap_nil_inv in Hnone.
    split; [cbn; lia|]. split; [cbn; apply NoDup_singleton|].
    split; [|left; now split].
    rewrite Forall_forall in Hgeneral. apply Forall_forall. intros r Hr.
    split.
    + intros Hin. apply list_elem_of_singleton in Hin.
      apply (f_equal skill_type) in Hin. cbn in Hin.
      injection Hin as Hin. now apply Hgeneral in Hr.
    + intros Hfire. exfalso.
      assert (Hin : In r (List.filter
                            (fun r => any_in (cues r) (Str.lower outcome))
                            rules))
        by (apply filter_In; split; [now apply list_elem_of_In | exact Hfire]).
      rewrite Hnone in Hin. exact Hin.
  - split; [|split; [|split]].
    + rewrite length_fmap. apply sublist_length in Hsub. exact Hsub.
    + rewrite <- list_fmap_compose.
      eapply sublist_NoDup; [|apply fmap_sublist, Hsub].
      change (NoDup (Some <$> (rule_type <$> rules))).
      apply (NoDup_fmap_2 _), Htypes.
    + apply Forall_forall. intros r Hr. split.
      * intros Hin. apply list_elem_of_fmap in Hin as (r' & Heq & Hr').
        apply list_elem_of_In, filter_In in Hr' as [Hr' Hfire].
        assert (r = r') as ->; [|exact Hfire].
        apply (f_equal skill_type) in Heq. cbn in Heq.
        injection Heq as Heq.
        apply (fmap_NoDup_inj rule_type rules Htypes);
          [exact Hr | now apply list_elem_of_In | exact Heq].
      * intros Hfire. apply list_elem_of_fmap_2, list_elem_of_In, filter_In.
        split; [now apply list_elem_of_In | exact Hfire].
    + right. split; [|reflexivity]. intros Hnil. apply Hsome.
      now rewrite Hnil.
Qed.

Lemma extract_main_skill_length (outcome context : string) :
  (String.length (extract_main_skill outcome context)
   <= Nat.max 79 (String.length context + 46))%nat.
Proof.
  unfold extract_main_skill. cbv zeta.
  destruct (Nat.ltb_spec (String.length (Str.strip outcome)) 60) as [H|H];
    [lia|].
  match goal with
  | |- context [(String.length ?c <? 80)%nat] =>
      destruct (Nat.ltb_spec (String.length c) 80) as [H'|H']; [lia|]
  end.
  rewrite !str_length_app.
  destruct (take_spec 40 (Str.strip outcome)) as [-> _].
  cbn [String.length]. lia.
Qed.

(** X3. The main skill name is never longer than 79 characters or, when the
    context label is long, than the label and 46 more. *)
Theorem main_skill_name_length (outcome context : string) :
  (String.length (extract_main_skill outcome context)
   <= Nat.max 79 (String.length context + 46))%nat.
Proof. apply extract_main_skill_length. Qed.

Section RecordBounds.

Variables (outcome : string) (level : Z) (module_code : string).

Lemma take_length_le n s : (String.length (Str.take n s) <= n)%nat.
Proof. destruct (take_spec n s) as [-> _]. lia. Qed.

Lemma rules_context_short :
  Forall (fun r => (String.length (context r) <= 33)%nat) rules.
Proof. repeat constructor; cbn; lia. Qed.

Lemma rules_candidates_NoDup : Forall (fun r => NoDup (candidates r)) rules.
Proof.
  repeat constructor; apply (bool_decide_unpack _); vm_compute; exact I.
Qed.

Lemma tags_rule_record (o m : string) (r : Rule) :
  tags (rule_record o m r)
  = (Some (rule_category r), Some (rule_type r),
     Some (determine_blooms_level (Str.lower o)),
     Some (extract_keywords (Str.lower o) (candidates r))).
Proof. reflexivity. Qed.

Lemma tags_fallback_record (o m : string) :
  tags (fallback_record o m)
  = (Some "General", Some "General Competency",
     Some (determine_blooms_level (Str.lower o)), Some []).
Proof. reflexivity. Qed.

End RecordBounds.

(** X4. Every record of the classifier carries the module code it was given,
    a skill name shorter than 80 characters and a description of at most 100
    characters. *)
Theorem classifier_record_sizes
  (outcome : string) (level : Z) (module_code : string) :
  Forall
    (fun s =>
       module s = Some module_code
       /\ exists name text,
           skill_name s = Some name /\ description s = Some text
           /\ (String.length name < 80)%nat
           /\ (String.length text <= 100)%nat)
    (extract_skills_from_outcome outcome level module_code).
Proof.
  apply extract_skills_Forall.
  - split; [reflexivity|]. do 2 eexists. do 2 (split; [reflexivity|]).
    pose proof (take_length_le 50 outcome).
    pose proof (take_length_le 100 outcome). lia.
  - eapply Forall_impl; [apply rules_context_short|].
    intros r Hr. split; [reflexivity|].
    exists (extract_main_skill outcome (context r)), (Str.take 100 outcome).
    do 2 (split; [reflexivity|]).
    pose proof (extract_main_skill_length outcome (context r)) as Hn.
    pose proof (take_length_le 100 outcome) as Hd.
    cbv beta in Hr. split; [|exact Hd].
    eapply Nat.le_lt_trans; [exact Hn|].
    apply Nat.max_lub_lt; lia.
Qed.

(** X5. The keywords of a record are pairwise different and each of them
    occurs in the lower-cased outcome. *)
Theorem classifier_keywords_occur
  (outcome : string) (level : Z) (module_code : string) :
  Forall
    (fun s =>
       exists ks,
         keywords s = Some ks /\ NoDup ks
         /\ Forall (fun k => Str.contains k (Str.lower outcome) = true) ks)
    (extract_skills_from_outcome outcome level module_code).
Proof.
  apply extract_skills_Forall.
  - exists []. repeat split; constructor.
  - eapply Forall_impl; [apply rules_candidates_NoDup|].
    intros r Hr. cbv beta in Hr.
    exists (extract_keywords (Str.lower outcome) (candidates r)).
    split; [reflexivity|].
    rewrite extract_keywords_filter. split.
    + eapply sublist_NoDup; [exact Hr | apply list_filter_sublist].
    + apply Forall_forall. intros k Hk.
      apply list_elem_of_In, filter_In in Hk. tauto.
Qed.

(** X6. Every record is tagged with one of nine (category, skill type)
    pairs, and a skill type goes with one category only. *)
Theorem classifier_tags_are_tabled
  (outcome : string) (level : Z) (module_code : string) :
  NoDup (snd <$> tag_pairs)
  /\ Forall (fun s => (category s, skill_type s) ∈ tag_pairs)
            (extract_skills_from_outcome outcome level module_code).
Proof.
  split; [apply (bool_decide_unpack _); vm_compute; exact I|].
  apply extract_skills_Forall.
  - apply (bool_decide_unpack _). vm_compute. exact I.
  - repeat constructor; apply (bool_decide_unpack _); vm_compute; exact I.
Qed.

(** X7. Classification looks at the lower-cased text only: two outcomes
    that differ in letter case alone get the same categories, skill types,
    Bloom level and keywords, whatever the level and module code. *)
Theorem classification_ignores_case
  (o1 o2 : string) (l1 l2 : Z) (m1 m2 : string) :
  Str.lower o1 = Str.lower o2 ->
  tags <$> extract_skills_from_outcome o1 l1 m1
  = tags <$> extract_skills_from_outcome o2 l2 m2.
Proof.
  intros H. rewrite !extract_skills_by_rules. unfold classify_by_rules.
  rewrite !fired_records_filter, H.
  destruct (List.filter (fun r => any_in (cues r) (Str.lower o2)) rules)
    as [|r rs]; cbn [fmap list_fmap].
  - now rewrite !tags_fallback_record, H.
  - rewrite !tags_rule_record, H. f_equal.
    rewrite <- !list_fmap_compose. apply Forall_fmap_ext, Forall_forall.
    intros r' _. cbn [compose]. now rewrite !tags_rule_record, H.
Qed.

Lemma classification_ignores_case_witness :
  Str.lower "DEBUG the Code" = Str.lower "debug THE code"
  /\ tags <$> extract_skills_from_outcome "DEBUG the Code" 1 "COMP101"
     = tags <$> extract_skills_from_outcome "debug THE code" 2 "COMP201".
Proof.
  assert (H : Str.lower "DEBUG the Code" = Str.lower "debug THE code")
    by reflexivity.
  split; [exact H|].
  exact (classification_ignores_case
           "DEBUG the Code" "debug THE code" 1 2 "COMP101" "COMP201" H).
Defined.

(** ** The consolidator's edges and invariants *)

Section ConsolidatorFacts.

Lemma first_seen_length l : (length (first_seen l) <= length l)%nat.
Proof.
  induction l as [|x l IH]; cbn; [lia|].
  pose proof (length_filter (fun y => y <> x) (first_seen l)). lia.
Qed.

Lemma first_seen_prefix_app l l' :
  first_seen l `prefix_of` first_seen (l ++ l').
Proof.
  induction l' as [|x l' IH] using rev_ind.
  - now rewrite app_nil_r.
  - rewrite app_assoc, first_seen_snoc.
    destruct (decide (x ∈ l ++ l')); [exact IH | now apply prefix_app_r].
Qed.

Lemma first_seen_app_seen l l' :
  (forall x, x ∈ l' -> x ∈ l) -> first_seen (l ++ l') = first_seen l.
Proof.
  induction l' as [|x l' IH] using rev_ind; intros Hseen.
  - now rewrite app_nil_r.
  - rewrite app_assoc, first_seen_snoc.
    rewrite decide_True.
    + apply IH. intros y Hy. apply Hseen, elem_of_app. now left.
    + apply elem_of_app. left. apply Hseen, elem_of_app. right.
      now apply list_elem_of_singleton.
Qed.

Lemma proficiency_of_rank_mono r r' :
  r <= r' -> proficiency_of_rank r `prefix_of` proficiency_of_rank r'.
Proof.
  intros Hle. unfold proficiency_of_rank.
  destruct (Z.leb_spec r 2), (Z.leb_spec r' 2), (Z.leb_spec r 4),
    (Z.leb_spec r' 4); try lia;
    first [ reflexivity
          | now exists ["Intermediate"]
          | now exists ["Intermediate"; "Advanced"]
          | now exists ["Advanced"] ].
Qed.

Lemma proficiency_of_rank_cases r :
  proficiency_of_rank r = ["Beginner"]
  \/ proficiency_of_rank r = ["Beginner"; "Intermediate"]
  \/ proficiency_of_rank r = ["Beginner"; "Intermediate"; "Advanced"].
Proof.
  unfold proficiency_of_rank.
  destruct (r <=? 2); [now left|]. destruct (r <=? 4); auto.
Qed.

(** The consolidated record of a name depends on the sets of modules and of
    Bloom levels observed under that name, and on nothing else. *)
Lemma consolidated_of_ext l l' n :
  (forall m, m ∈ module_of <$> group n l <-> m ∈ module_of <$> group n l') ->
  (forall b, b ∈ blooms_of <$> group n l <-> b ∈ blooms_of <$> group n l') ->
  consolidated_of l n = consolidated_of l' n.
Proof.
  intros Hm Hb. unfold consolidated_of. f_equal.
  - f_equal. apply Z.le_antisymm; apply max_rank_le; intros b; apply Hb.
  - f_equal. apply set_eq. intros m. now rewrite !elem_of_list_to_set.
  - f_equal. apply set_eq. intros b. now rewrite !elem_of_list_to_set.
Qed.

End ConsolidatorFacts.

(** X8. [determine_proficiency_levels] fails on the empty set and on no
    other (the [ValueError] of [max]); when it returns, it returns Beginner,
    or Beginner and Intermediate, or all three levels. *)
Theorem proficiency_levels_of_a_set (blooms_levels : gset string) :
  (determine_proficiency_levels blooms_levels = None <-> blooms_levels = ∅)
  /\ (forall levels,
        determine_proficiency_levels blooms_levels = Some levels ->
        levels = ["Beginner"]
        \/ levels = ["Beginner"; "Intermediate"]
        \/ levels = ["Beginner"; "Intermediate"; "Advanced"]).
Proof.
  destruct (decide (blooms_levels = ∅)) as [->|Hne].
  - assert (H : determine_proficiency_levels ∅ = None).
    { unfold determine_proficiency_levels. now rewrite elements_empty. }
    rewrite H. split; [tauto | discriminate].
  - rewrite determine_proficiency_levels_elements by exact Hne. split.
    + split; [discriminate | contradiction].
    + intros levels [= <-]. apply proficiency_of_rank_cases.
Qed.

Lemma proficiency_levels_of_a_set_witness :
  determine_proficiency_levels {[ "Create" ]}
  = Some ["Beginner"; "Intermediate"; "Advanced"]
  /\ (["Beginner"; "Intermediate"; "Advanced"] = ["Beginner"]
      \/ ["Beginner"; "Intermediate"; "Advanced"]
         = ["Beginner"; "Intermediate"]
      \/ ["Beginner"; "Intermediate"; "Advanced"]
         = ["Beginner"; "Intermediate"; "Advanced"]).
Proof.
  assert (H : determine_proficiency_levels {[ "Create" ]}
              = Some ["Beginner"; "Intermediate"; "Advanced"])
    by (vm_compute; reflexivity).
  split; [exact H|].
  exact (proj2 (proficiency_levels_of_a_set {[ "Create" ]}) _ H).
Defined.

(** X9. The consolidator returns at most as many records as it is given,
    and none exactly when it is given none; every record it returns lists at
    least one module and one Bloom level, and its proficiency levels are
    Beginner, or Beginner and Intermediate, or all three. *)
Theorem consolidator_output_shape (skills : list Skill) :
  exists out,
    consolidate_similar_skills skills = Some out
    /\ (length out <= length skills)%nat
    /\ (out = [] <-> skills = [])
    /\ Forall
         (fun c =>
            appears_in_modules c <> [] /\ bloom_levels c <> []
            /\ (proficiency_levels c = ["Beginner"]
                \/ proficiency_levels c = ["Beginner"; "Intermediate"]
                \/ proficiency_levels c
                   = ["Beginner"; "Intermediate"; "Advanced"]))
         out.
Proof.
  eexists. split; [apply consolidate_spec|].
  split; [|split].
  - rewrite length_fmap.
    etransitivity; [apply first_seen_length|]. now rewrite length_fmap.
  - destruct skills as [|s l]; [easy|]. split; discriminate.
  - apply Forall_fmap, Forall_forall. intros n Hn.
    rewrite elem_of_first_seen in Hn.
    apply list_elem_of_fmap in Hn as (s & -> & Hs).
    destruct (consolidated_covers skills s Hs) as (_ & Hm & Hb).
    cbn [compose]. split; [|split].
    + intros Hnil. rewrite Hnil in Hm. inversion Hm.
    + intros Hnil. rewrite Hnil in Hb. inversion Hb.
    + apply proficiency_of_rank_cases.
Qed.

(** X10. Records that repeat what was already observed change nothing:
    when each added record pairs its name with a module, and with a Bloom
    level, that some earlier record of that name already has, the
    consolidator returns the same result. *)
Theorem consolidator_ignores_known_evidence (skills more : list Skill) :
  Forall
    (fun s' =>
       (exists s, s ∈ skills /\ name_of s = name_of s'
                  /\ module_of s = module_of s')
       /\ (exists s, s ∈ skills /\ name_of s = name_of s'
                     /\ blooms_of s = blooms_of s'))
    more ->
  consolidate_similar_skills (skills ++ more)
  = consolidate_similar_skills skills.
Proof.
  intros Hknown. rewrite Forall_forall in Hknown.
  rewrite !consolidate_spec. f_equal.
  rewrite fmap_app, first_seen_app_seen.
  - apply Forall_fmap_ext, Forall_forall. intros n _.
    apply consolidated_of_ext.
    + intros m. rewrite !elem_of_observed. split.
      * intros (s & Hs & Hn & Hm). apply elem_of_app in Hs as [Hs|Hs];
          [now exists s|].
        destruct (Hknown s Hs) as [(s0 & Hs0 & Hn0 & Hm0) _].
        exists s0. repeat split; congruence.
      * intros (s & Hs & Hn & Hm). exists s.
        split; [apply elem_of_app; now left | easy].
    + intros b. rewrite !elem_of_observed. split.
      * intros (s & Hs & Hn & Hb). apply elem_of_app in Hs as [Hs|Hs];
          [now exists s|].
        destruct (Hknown s Hs) as [_ (s0 & Hs0 & Hn0 & Hb0)].
        exists s0. repeat split; congruence.
      * intros (s & Hs & Hn & Hb). exists s.
        split; [apply elem_of_app; now left | easy].
  - intros n Hn. apply list_elem_of_fmap in Hn as (s' & -> & Hs').
    destruct (Hknown s' Hs') as [(s0 & Hs0 & Hn0 & _) _].
    rewrite <- Hn0. now apply list_elem_of_fmap_2.
Qed.

Lemma consolidator_ignores_known_evidence_witness :
  consolidate_similar_skills (programming_records ++ programming_records)
  = consolidate_similar_skills programming_records.
Proof.
  apply consolidator_ignores_known_evidence.
  apply Forall_forall. intros s Hs. split; exists s; auto.
Defined.

(** X11. More records never take anything back: the names already seen
    keep their places at the front, and each of them keeps its modules and
    Bloom levels and has its old proficiency levels as a prefix of the new
    ones. *)
Theorem consolidator_is_monotone (skills more : list Skill) :
  exists out out',
    consolidate_similar_skills skills = Some out
    /\ consolidate_similar_skills (skills ++ more) = Some out'
    /\ (cs_name <$> out) `prefix_of` (cs_name <$> out')
    /\ Forall
         (fun c =>
            exists c',
              c' ∈ out' /\ cs_name c' = cs_name c
              /\ appears_in_modules c ⊆ appears_in_modules c'
              /\ bloom_levels c ⊆ bloom_levels c'
              /\ proficiency_levels c `prefix_of` proficiency_levels c')
         out.
Proof.
  do 2 eexists. split; [apply consolidate_spec|].
  split; [apply consolidate_spec|].
  assert (Hnames : forall l,
             cs_name <$> (consolidated_of l <$> first_seen (name_of <$> l))
             = first_seen (name_of <$> l)).
  { intros l. rewrite <- list_fmap_compose. apply list_fmap_id. }
  split.
  - rewrite !Hnames, fmap_app. apply first_seen_prefix_app.
  - apply Forall_fmap, Forall_forall. intros n Hn.
    exists (consolidated_of (skills ++ more) n). cbn [compose].
    assert (Hsub : forall (f : Skill -> string) x,
               x ∈ f <$> group n skills -> x ∈ f <$> group n (skills ++ more)).
    { intros f x. rewrite !elem_of_observed. intros (s & Hs & Hrest).
      exists s. split; [apply elem_of_app; now left | exact Hrest]. }
    split; [|split; [reflexivity|split; [|split]]].
    + apply list_elem_of_fmap_2.
      rewrite elem_of_first_seen in *. rewrite fmap_app.
      apply elem_of_app. now left.
    + intros m. cbn. rewrite !elem_of_sorted_observed.
      rewrite <- !elem_of_observed. apply Hsub.
    + intros b. cbn. rewrite !elem_of_sorted_observed.
      rewrite <- !elem_of_observed. apply Hsub.
    + cbn. apply proficiency_of_rank_mono, max_rank_le. apply Hsub.
Qed.

(** ** What the taxonomy holds *)

Section TaxonomyFacts.

Variable all_skills : list Skill.

Lemma elem_of_bucket s c t :
  s ∈ bucket c t all_skills
  <-> category_of s = c /\ type_of s = t /\ s ∈ all_skills.
Proof. unfold bucket. rewrite list_elem_of_filter. tauto. Qed.

Lemma elem_of_types_in t c :
  t ∈ types_in c all_skills
  <-> exists s, s ∈ all_skills /\ category_of s = c /\ type_of s = t.
Proof.
  unfold types_in, members.
  rewrite elem_of_first_seen, list_elem_of_fmap. split.
  - intros (s & -> & Hs). apply list_elem_of_filter in Hs. exists s. tauto.
  - intros (s & Hs & Hc & <-). exists s. split; [reflexivity|].
    now apply list_elem_of_filter.
Qed.

Lemma types_in_nonempty c :
  c ∈ first_seen (category_of <$> all_skills) -> types_in c all_skills <> [].
Proof.
  rewrite elem_of_first_seen, list_elem_of_fmap. intros (s & -> & Hs) Hnil.
  assert (H : type_of s ∈ types_in (category_of s) all_skills)
    by (apply elem_of_types_in; eauto).
  rewrite Hnil in H. inversion H.
Qed.

Lemma bucket_nonempty c t :
  t ∈ types_in c all_skills -> bucket c t all_skills <> [].
Proof.
  rewrite elem_of_types_in. intros (s & Hs & Hc & Ht) Hnil.
  assert (H : s ∈ bucket c t all_skills) by (now apply elem_of_bucket).
  rewrite Hnil in H. inversion H.
Qed.

Lemma fmap_nonempty {A B} (f : A -> B) l : l <> [] -> f <$> l <> [].
Proof. destruct l; [congruence | discriminate]. Qed.

Lemma first_seen_nonempty l : l <> [] -> first_seen l <> [].
Proof. destruct l; [congruence | discriminate]. Qed.

End TaxonomyFacts.

(** X12. The builder loses no record and invents none: every input record
    is found under the domain of its category, the sub-category of its skill
    type and the consolidated skill of its name, with its module and Bloom
    level listed there; and every module and Bloom level listed in the
    taxonomy comes from an input record of that category, skill type and
    name. *)
Theorem taxonomy_conserves_records (all_skills : list Skill) :
  exists taxonomy,
    build_taxonomy_structure all_skills = Some taxonomy
    /\ Forall
         (fun s =>
            exists d sc c,
              d ∈ domains taxonomy /\ dom_name d = category_of s
              /\ sc ∈ sub_categories d /\ sub_name sc = type_of s
              /\ c ∈ skills sc /\ cs_name c = name_of s
              /\ module_of s ∈ appears_in_modules c
              /\ blooms_of s ∈ bloom_levels c)
         all_skills
    /\ Forall
         (fun d =>
            Forall
              (fun sc =>
                 Forall
                   (fun c =>
                      Forall
                        (fun m =>
                           exists s,
                             s ∈ all_skills
                             /\ category_of s = dom_name d
                             /\ type_of s = sub_name sc
                             /\ name_of s = cs_name c /\ module_of s = m)
                        (appears_in_modules c)
                      /\ Forall
                           (fun b =>
                              exists s,
                                s ∈ all_skills
                                /\ category_of s = dom_name d
                                /\ type_of s = sub_name sc
                                /\ name_of s = cs_name c /\ blooms_of s = b)
                           (bloom_levels c))
                   (skills sc))
              (sub_categories d))
         (domains taxonomy).
Proof.
  eexists. split; [apply build_spec|]. cbn [domains]. split.
  - apply Forall_forall. intros s Hs.
    assert (Hb : s ∈ bucket (category_of s) (type_of s) all_skills)
      by (now apply elem_of_bucket).
    destruct (consolidated_covers _ s Hb) as (Hc & Hm & Hbl).
    exists (domain_of all_skills (category_of s)),
      (sub_category_of all_skills (category_of s) (type_of s)),
      (consolidated_of (bucket (category_of s) (type_of s) all_skills)
         (name_of s)).
    split; [|split; [reflexivity|split; [|split; [reflexivity|]]]].
    + apply list_elem_of_fmap_2, elem_of_first_seen.
      now apply list_elem_of_fmap_2.
    + cbn. apply list_elem_of_fmap_2, elem_of_types_in. eauto.
    + cbn [skills sub_category_of]. auto.
  - apply Forall_fmap, Forall_forall. intros c0 _. cbn.
    apply Forall_fmap, Forall_forall. intros t0 _. cbn.
    apply Forall_fmap, Forall_forall. intros n _. cbn.
    split; apply Forall_forall; intros x Hx;
      apply elem_of_sorted_observed in Hx as (s & Hs & Hn & Hx);
      apply elem_of_bucket in Hs as (Hc & Ht & Hs); exists s; auto.
Qed.

(** X13. The taxonomy has no duplicates and no empty branch: domain names
    are pairwise different, and so are the sub-category names of a domain
    and the skill names of a sub-category; every domain has a sub-category
    and every sub-category a skill. *)
Theorem taxonomy_has_no_duplicates (all_skills : list Skill) :
  exists taxonomy,
    build_taxonomy_structure all_skills = Some taxonomy
    /\ NoDup (dom_name <$> domains taxonomy)
    /\ (domains taxonomy = [] <-> all_skills = [])
    /\ Forall
         (fun d =>
            sub_categories d <> []
            /\ NoDup (sub_name <$> sub_categories d)
            /\ Forall
                 (fun sc =>
                    skills sc <> [] /\ NoDup (cs_name <$> skills sc))
                 (sub_categories d))
         (domains taxonomy).
Proof.
  eexists. split; [apply build_spec|]. cbn [domains].
  assert (Hid : forall {A} (f : string -> A) (g : A -> string)
                       (l : list string),
             (forall x, g (f x) = x) -> g <$> (f <$> l) = l).
  { intros A f g l Hgf. rewrite <- list_fmap_compose.
    rewrite <- (list_fmap_id l) at 2.
    apply Forall_fmap_ext, Forall_forall. intros x _. apply Hgf. }
  split; [|split].
  - rewrite Hid by reflexivity. apply NoDup_first_seen.
  - destruct all_skills; [easy|]. split; discriminate.
  - apply Forall_fmap, Forall_forall. intros c Hc. cbn.
    split; [|split].
    + apply fmap_nonempty. now apply types_in_nonempty.
    + rewrite Hid by reflexivity. apply NoDup_first_seen.
    + apply Forall_fmap, Forall_forall. intros t Ht. cbn. split.
      * apply fmap_nonempty, first_seen_nonempty, fmap_nonempty.
        now apply bucket_nonempty.
      * rewrite Hid by reflexivity. apply NoDup_first_seen.
Qed.

Section Partition.

Context {A : Type} (key : A -> string).

Lemma filter_ne_absent x (l : list string) :
  x ∉ l -> filter (fun y => y <> x) l = l.
Proof.
  induction l as [|y l IH]; intros Hx; [reflexivity|].
  apply not_elem_of_cons in Hx as [Hne Hx].
  rewrite filter_cons, decide_True by congruence. now rewrite IH.
Qed.

Lemma sum_without (g : string -> nat) x (l : list string) :
  NoDup l -> (x ∉ l -> g x = 0%nat) ->
  (g x + sum_list (g <$> filter (fun y => y <> x) l))%nat
  = sum_list (g <$> l).
Proof.
  induction l as [|y l IH]; intros Hnd Hx.
  - cbn. rewrite Hx; [reflexivity | apply not_elem_of_nil].
  - apply NoDup_cons in Hnd as [Hy Hnd]. rewrite filter_cons.
    destruct (decide (y <> x)) as [Hne|Heq].
    + cbn. rewrite <- IH; [lia | exact Hnd |].
      intros Hxl. apply Hx. apply not_elem_of_cons. split; congruence.
    + assert (y = x) as -> by (destruct (decide (y = x)); tauto).
      rewrite filter_ne_absent by exact Hy. reflexivity.
Qed.

Lemma members_cons k a l :
  members key k (a :: l)
  = if decide (key a = k) then a :: members key k l else members key k l.
Proof. unfold members. now rewrite filter_cons. Qed.

(** The groups of a first-seen grouping split the list. *)
Lemma members_partition l :
  sum_list ((fun k => length (members key k l)) <$> first_seen (key <$> l))
  = length l.
Proof.
  induction l as [|a l IH]; [reflexivity|].
  set (fs := first_seen (key <$> l)) in *.
  assert (Hrest :
            (fun k => length (members key k (a :: l)))
              <$> filter (fun y => y <> key a) fs
            = (fun k => length (members key k l))
                <$> filter (fun y => y <> key a) fs).
  { apply Forall_fmap_ext, Forall_forall.
    intros k Hk. apply list_elem_of_filter in Hk as [Hne _].
    rewrite members_cons, decide_False by congruence. reflexivity. }
  assert (Hsplit :
            (length (members key (key a) l)
             + sum_list ((fun k => length (members key k l))
                           <$> filter (fun y => y <> key a) fs))%nat
            = sum_list ((fun k => length (members key k l)) <$> fs)).
  { apply (sum_without (fun k => length (members key k l))).
    - apply NoDup_first_seen.
    - intros Hk. unfold fs in Hk. rewrite elem_of_first_seen in Hk.
      now rewrite members_none. }
  change (first_seen (key <$> a :: l))
    with (key a :: filter (fun y => y <> key a) fs).
  rewrite fmap_cons, Hrest, members_cons, decide_True by reflexivity.
  cbn [sum_list_with length id]. rewrite <- IH, <- Hsplit. reflexivity.
Qed.

Lemma sum_list_fmap_le {B} (f g : B -> nat) (l : list B) :
  Forall (fun x => (f x <= g x)%nat) l ->
  (sum_list (f <$> l) <= sum_list (g <$> l))%nat.
Proof.
  induction 1 as [|x l Hx _ IH]; [reflexivity|].
  rewrite !fmap_cons. cbn [sum_list_with]. unfold id in *. lia.
Qed.

End Partition.

Lemma taxonomy_size_bound (all_skills : list Skill) :
  (taxonomy_size
     {| domains :=
          domain_of all_skills
            <$> first_seen (category_of <$> all_skills) |}
   <= length all_skills)%nat.
Proof.
  unfold taxonomy_size. cbn [domains].
  rewrite <- (members_partition category_of all_skills).
  rewrite <- list_fmap_compose.
  apply sum_list_fmap_le, Forall_forall.
  intros c _. cbn [compose sub_categories domain_of].
  rewrite <- (members_partition type_of (members category_of c all_skills)).
  rewrite <- list_fmap_compose. unfold types_in.
  apply sum_list_fmap_le, Forall_forall.
  intros t _. cbn [compose skills sub_category_of].
  rewrite length_fmap, bucket_members.
  etransitivity; [apply first_seen_length|]. now rewrite length_fmap.
Qed.

(** X14. Consolidation only merges: the taxonomy holds at most as many
    skills as there are input records. *)
Theorem taxonomy_is_no_larger_than_input (all_skills : list Skill) :
  exists taxonomy,
    build_taxonomy_structure all_skills = Some taxonomy
    /\ (taxonomy_size taxonomy <= length all_skills)%nat.
Proof.
  eexists. split; [apply build_spec | apply taxonomy_size_bound].
Qed.

(** ** The extractor's two outputs *)

Section ExtractorFacts.

Lemma extract_skills_length outcome level module_code :
  (1 <= length (extract_skills_from_outcome outcome level module_code) <= 8)
    %nat.
Proof.
  destruct (extract_skills_cases outcome level module_code)
    as [[_ ->]|[Hne ->]]; [cbn; lia|].
  split.
  - destruct (fired_records outcome module_code); [congruence | cbn; lia].
  - rewrite fired_records_filter, length_fmap.
    apply (sublist_length _ rules), list_filter_sublist.
Qed.

Lemma skills_of_module_dropped m :
  has_outcomes m = false -> skills_of_module m = [].
Proof.
  unfold has_outcomes, skills_of_module.
  destruct (learning_outcomes m) as [[|o l]|]; easy.
Qed.

(** Dropped modules have no records, so the flat sequence can be read off
    all the modules. *)
Lemma flat_map_retained ms :
  flat_map skills_of_module (List.filter has_outcomes ms)
  = flat_map skills_of_module ms.
Proof.
  induction ms as [|m ms IH]; [reflexivity|]. cbn.
  destruct (has_outcomes m) eqn:Hm; cbn; rewrite IH; [reflexivity|].
  now rewrite skills_of_module_dropped.
Qed.

Lemma skills_of_module_length m :
  (length (default [] (learning_outcomes m))
   <= length (skills_of_module m)
   <= 8 * length (default [] (learning_outcomes m)))%nat.
Proof.
  unfold skills_of_module.
  induction (default [] (learning_outcomes m)) as [|o os IH]; cbn; [lia|].
  rewrite length_app.
  pose proof (extract_skills_length o (default 0 (level m))
                (default "Unknown" (code m))) as Ho.
  unfold classify_in at 1 3. lia.
Qed.

Lemma skills_of_module_code m :
  Forall (fun s => module s = Some (default "Unknown" (code m)))
         (skills_of_module m).
Proof.
  unfold skills_of_module. apply Forall_flat_map, Forall_forall.
  intros o _. unfold classify_in. apply extract_skills_Forall.
  - reflexivity.
  - apply Forall_forall. reflexivity.
Qed.

Lemma skills_of_module_nonempty m :
  has_outcomes m = true -> skills_of_module m <> [].
Proof.
  intros Hm Hnil. pose proof (skills_of_module_length m) as Hlen.
  rewrite Hnil in Hlen. unfold has_outcomes in Hm.
  destruct (learning_outcomes m) as [[|o l]|]; cbn in *; try discriminate.
  lia.
Qed.

End ExtractorFacts.

(** X15. The extractor's two outputs agree: the flat skill sequence is the
    concatenation of the skill lists of the enriched modules; each enriched
    module has outcomes and at least one skill, and each of its skills
    carries the module's code, or Unknown when the module has none. *)
Theorem extractor_outputs_agree (ms : list ModuleData) :
  all_skills (analyze_learning_outcomes_direct ms)
  = flat_map extracted_skills (modules (analyze_learning_outcomes_direct ms))
  /\ Forall
       (fun em =>
          has_outcomes (base em) = true
          /\ extracted_skills em <> []
          /\ Forall
               (fun s =>
                  module s = Some (default "Unknown" (code (base em))))
               (extracted_skills em))
       (modules (analyze_learning_outcomes_direct ms)).
Proof.
  rewrite analyze_unfold. cbn. split.
  - induction (List.filter has_outcomes ms) as [|m l IH]; cbn;
      [reflexivity | now rewrite IH].
  - apply Forall_map, Forall_forall. intros m Hm.
    apply list_elem_of_In, filter_In in Hm as [_ Hm]. cbn.
    split; [exact Hm|]. split.
    + now apply skills_of_module_nonempty.
    + apply skills_of_module_code.
Qed.

(** X16. The extractor keeps at most the modules it is given, and counts
    at least one and at most eight skills per learning outcome. *)
Theorem extractor_count_bounds (ms : list ModuleData) :
  (total_modules (analyze_learning_outcomes_direct ms) <= length ms)%nat
  /\ (outcome_count ms
      <= total_skills (analyze_learning_outcomes_direct ms)
      <= 8 * outcome_count ms)%nat.
Proof.
  rewrite analyze_unfold. cbn. split.
  - rewrite length_map. apply List.filter_length_le.
  - rewrite flat_map_retained. unfold outcome_count.
    induction ms as [|m ms IH]; [cbn; lia|].
    cbn [flat_map map sum_list_with]. rewrite length_app.
    pose proof (skills_of_module_length m). unfold id in *. lia.
Qed.

(** X17. Extraction distributes over concatenation of the input: the
    enriched modules and the skills of [a ++ b] are those of [a] followed by
    those of [b], and the totals add up. *)
Theorem extractor_distributes_over_append (a b : list ModuleData) :
  modules (analyze_learning_outcomes_direct (a ++ b))
  = modules (analyze_learning_outcomes_direct a)
      ++ modules (analyze_learning_outcomes_direct b)
  /\ all_skills (analyze_learning_outcomes_direct (a ++ b))
     = all_skills (analyze_learning_outcomes_direct a)
         ++ all_skills (analyze_learning_outcomes_direct b)
  /\ total_modules (analyze_learning_outcomes_direct (a ++ b))
     = (total_modules (analyze_learning_outcomes_direct a)
        + total_modules (analyze_learning_outcomes_direct b))%nat
  /\ total_skills (analyze_learning_outcomes_direct (a ++ b))
     = (total_skills (analyze_learning_outcomes_direct a)
        + total_skills (analyze_learning_outcomes_direct b))%nat.
Proof.
  rewrite !analyze_unfold. cbn.
  rewrite List.filter_app, map_app, flat_map_app, !length_app.
  repeat split; reflexivity.
Qed.

(** ** The result of [main] *)

Section MainFacts.

Lemma determine_blooms_level_named text :
  determine_blooms_level text ∈ bloom_names.
Proof.
  unfold determine_blooms_level, bloom_names.
  repeat match goal with
         | |- context [if any_in ?l text then _ else _] =>
             destruct (any_in l text)
         end;
    rewrite !elem_of_cons; tauto.
Qed.

Lemma tag_pairs_present :
  Forall
    (fun p =>
       exists c t,
         p = (Some c, Some t)
         /\ c ∈ ["Technical"; "Cognitive"; "Domain-Specific"; "General"])
    tag_pairs.
Proof.
  repeat constructor; do 2 eexists; (split; [reflexivity|]);
    rewrite !elem_of_cons; tauto.
Qed.

Lemma extract_skills_well_formed outcome level module_code :
  Forall (well_formed module_code)
         (extract_skills_from_outcome outcome level module_code).
Proof.
  apply extract_skills_Forall.
  - split; [reflexivity|]. split.
    { change (name_of (fallback_record outcome module_code))
        with (Str.take 50 outcome).
      pose proof (take_length_le 50 outcome). lia. }
    split; [apply determine_blooms_level_named|].
    split; [apply (bool_decide_unpack _); vm_compute; exact I|].
    cbn. rewrite !elem_of_cons. tauto.
  - assert (Htags : Forall
                      (fun r =>
                         (Some (rule_category r), Some (rule_type r))
                           ∈ tag_pairs
                         /\ rule_category r
                              ∈ ["Technical"; "Cognitive"; "Domain-Specific";
                                 "General"])
                      rules).
    { repeat constructor;
        first [ apply (bool_decide_unpack _); vm_compute; exact I
              | cbn; rewrite !elem_of_cons; tauto ]. }
    pose proof rules_context_short as Hctx.
    rewrite Forall_forall in Htags, Hctx. apply Forall_forall.
    intros r Hr. destruct (Htags r Hr) as [Hpair Hcat].
    split; [reflexivity|]. split.
    { change (name_of (rule_record outcome module_code r))
        with (extract_main_skill outcome (context r)).
      pose proof (extract_main_skill_length outcome (context r)) as Hn.
      specialize (Hctx r Hr). cbv beta in Hctx.
      eapply Nat.le_lt_trans; [exact Hn|]. apply Nat.max_lub_lt; lia. }
    split; [apply determine_blooms_level_named|]. split; assumption.
Qed.

Lemma analysis_skills_well_formed ms s :
  s ∈ flat_map skills_of_module (List.filter has_outcomes ms) ->
  exists m,
    m ∈ List.filter has_outcomes ms
    /\ well_formed (default "Unknown" (code m)) s.
Proof.
  rewrite list_elem_of_In, in_flat_map. intros (m & Hm & Hs).
  exists m. split; [now apply list_elem_of_In|].
  unfold skills_of_module in Hs. apply in_flat_map in Hs as (o & _ & Hs).
  pose proof (extract_skills_well_formed o (default 0 (level m))
                (default "Unknown" (code m))) as Hwf.
  rewrite Forall_forall in Hwf. apply Hwf. now apply list_elem_of_In.
Qed.

Lemma main_spec (loaded_modules : list ModuleData) :
  main loaded_modules
  = Some
      {| res_taxonomy :=
           {| domains :=
                domain_of
                  (flat_map skills_of_module
                     (List.filter has_outcomes loaded_modules))
                  <$> first_seen
                        (category_of
                           <$> flat_map skills_of_module
                                 (List.filter has_outcomes loaded_modules)) |};
         res_modules := map enrich (List.filter has_outcomes loaded_modules);
         res_total_skills :=
           length (flat_map skills_of_module
                     (List.filter has_outcomes loaded_modules));
         res_total_modules :=
           length (map enrich (List.filter has_outcomes loaded_modules)) |}.
Proof.
  unfold main. rewrite analyze_unfold. cbv zeta.
  cbn [all_skills modules total_skills total_modules].
  now rewrite build_spec.
Qed.

End MainFacts.

(** X18. [main] always builds a result; its module count is the number of
    enriched modules, its skill count is the number of their extracted
    skills, the taxonomy holds no more skills than that, and every module
    code the taxonomy lists is the code of an enriched module (Unknown for a
    module without code). *)
Theorem main_result_is_consistent (loaded_modules : list ModuleData) :
  exists result,
    main loaded_modules = Some result
    /\ res_total_modules result = length (res_modules result)
    /\ res_total_skills result
       = length (flat_map extracted_skills (res_modules result))
    /\ (taxonomy_size (res_taxonomy result) <= res_total_skills result)%nat
    /\ Forall
         (fun d =>
            Forall
              (fun sc =>
                 Forall
                   (fun c =>
                      Forall
                        (fun m =>
                           exists em,
                             em ∈ res_modules result
                             /\ m = default "Unknown" (code (base em)))
                        (appears_in_modules c))
                   (skills sc))
              (sub_categories d))
         (domains (res_taxonomy result)).
Proof.
  eexists. split; [apply main_spec|].
  cbn [res_total_modules res_modules res_total_skills res_taxonomy domains].
  set (kept := List.filter has_outcomes loaded_modules).
  split; [reflexivity|]. split; [|split].
  - f_equal. induction kept as [|m l IH]; cbn; [reflexivity|].
    now rewrite IH.
  - apply taxonomy_size_bound.
  - apply Forall_fmap, Forall_forall. intros c0 _. cbn.
    apply Forall_fmap, Forall_forall. intros t0 _. cbn.
    apply Forall_fmap, Forall_forall. intros n _. cbn.
    apply Forall_forall. intros m Hm.
    apply elem_of_sorted_observed in Hm as (s & Hs & _ & Hm).
    apply elem_of_bucket in Hs as (_ & _ & Hs).
    apply analysis_skills_well_formed in Hs as (m0 & Hm0 & Hcode & _).
    exists (enrich m0). split; [|cbn; congruence].
    apply list_elem_of_In, in_map. now apply list_elem_of_In.
Qed.

(** X19. The taxonomy [main] builds stays within the classifier's
    vocabulary: at most four domains, named Technical, Cognitive,
    Domain-Specific or General; every sub-category under the one domain its
    skill type belongs to; every skill name shorter than 80 characters and
    every Bloom level one of the six names. *)
Theorem main_taxonomy_vocabulary (loaded_modules : list ModuleData) :
  exists result,
    main loaded_modules = Some result
    /\ (length (domains (res_taxonomy result)) <= 4)%nat
    /\ Forall
         (fun d =>
            dom_name d
              ∈ ["Technical"; "Cognitive"; "Domain-Specific"; "General"]
            /\ Forall
                 (fun sc =>
                    (Some (dom_name d), Some (sub_name sc)) ∈ tag_pairs
                    /\ Forall
                         (fun c =>
                            (String.length (cs_name c) < 80)%nat
                            /\ Forall (fun b => b ∈ bloom_names)
                                      (bloom_levels c))
                         (skills sc))
                 (sub_categories d))
         (domains (res_taxonomy result)).
Proof.
  eexists. split; [apply main_spec|]. cbn [res_taxonomy domains].
  set (sk := flat_map skills_of_module
               (List.filter has_outcomes loaded_modules)).
  assert (Hwf : forall s, s ∈ sk -> exists code, well_formed code s).
  { intros s Hs. apply analysis_skills_well_formed in Hs as (m & _ & H).
    eauto. }
  assert (Hdom : forall c,
             c ∈ first_seen (category_of <$> sk) ->
             c ∈ ["Technical"; "Cognitive"; "Domain-Specific"; "General"]).
  { intros c Hc. rewrite elem_of_first_seen in Hc.
    apply list_elem_of_fmap in Hc as (s & -> & Hs).
    destruct (Hwf s Hs) as (code & _ & _ & _ & _ & H). exact H. }
  split; [|].
  - rewrite length_fmap.
    change 4%nat
      with (length ["Technical"; "Cognitive"; "Domain-Specific"; "General"]).
    apply submseteq_length, NoDup_submseteq;
      [apply NoDup_first_seen | exact Hdom].
  - apply Forall_fmap, Forall_forall. intros c0 Hc0. cbn.
    split; [now apply Hdom|].
    apply Forall_fmap, Forall_forall. intros t0 Ht0. cbn. split.
    + apply elem_of_types_in in Ht0 as (s & Hs & <- & <-).
      destruct (Hwf s Hs) as (code & _ & _ & _ & H & _). exact H.
    + apply Forall_fmap, Forall_forall. intros n Hn. cbn. split.
      * rewrite elem_of_first_seen in Hn.
        apply list_elem_of_fmap in Hn as (s & -> & Hs).
        apply elem_of_bucket in Hs as (_ & _ & Hs).
        destruct (Hwf s Hs) as (code & _ & H & _). exact H.
      * apply Forall_forall. intros b Hb.
        apply elem_of_sorted_observed in Hb as (s & Hs & _ & <-).
        apply elem_of_bucket in Hs as (_ & _ & Hs).
        destruct (Hwf s Hs) as (code & _ & _ & H & _). exact H.
Qed.

(** ** The analyzer's counts *)

Section Counts.

Lemma collect_loop {B} (f : Skill -> B) (ms : list StoredModule) acc :
  fold_left
    (fun acc module =>
       fold_left (fun acc skill => acc ++ [f skill])
                 (default [] (stored_skills module)) acc)
    ms acc
  = acc ++ (f <$> stored_skill_list ms).
Proof.
  assert (Hinner : forall l acc0,
             fold_left (fun acc skill => acc ++ [f skill]) l acc0
             = acc0 ++ (f <$> l)).
  { induction l as [|s l IH]; intros acc0; cbn; [now rewrite app_nil_r|].
    now rewrite IH, <- app_assoc. }
  revert acc. induction ms as [|m ms IH]; intros acc; cbn;
    [now rewrite app_nil_r|].
  rewrite IH, Hinner, fmap_app. now rewrite app_assoc.
Qed.

Lemma count_fold k xs :
  gathered (fun x : string => x) 0%nat (fun _ n => S n) k xs
  = occurrences k xs.
Proof.
  unfold gathered, occurrences, members.
  generalize (filter (fun a : string => a = k) xs). intros l.
  assert (H : forall n, fold_left (fun v (_ : string) => S v) l n
                        = (n + length l)%nat).
  { induction l as [|x l IH]; intros n; cbn; [lia|]. rewrite IH. lia. }
  apply H.
Qed.

(** A [Counter] lists the distinct elements in first-seen order, each with
    the number of its occurrences. *)
Lemma Counter_spec xs :
  Counter xs = (fun k => (k, occurrences k xs)) <$> first_seen xs.
Proof.
  unfold Counter.
  rewrite (group_by_first_seen (fun x : string => x) 0%nat (fun _ n => S n)).
  rewrite list_fmap_id.
  apply Forall_fmap_ext, Forall_forall. intros k _. now rewrite count_fold.
Qed.

Lemma Counter_total xs : sum_list (snd <$> Counter xs) = length xs.
Proof.
  rewrite Counter_spec, <- list_fmap_compose.
  transitivity
    (sum_list ((fun k => length (members (fun x : string => x) k xs))
                 <$> first_seen ((fun x : string => x) <$> xs)));
    [now rewrite list_fmap_id | apply members_partition].
Qed.

Lemma occurrences_absent k xs : k ∉ xs -> occurrences k xs = 0%nat.
Proof.
  intros Hk. unfold occurrences.
  change (filter (fun x => x = k) xs)
    with (members (fun x : string => x) k xs).
  rewrite members_none; [reflexivity|]. now rewrite list_fmap_id.
Qed.

Lemma get_Counter xs k : get (Counter xs) k 0%nat = occurrences k xs.
Proof.
  rewrite Counter_spec.
  assert (H : forall keys,
             get ((fun k => (k, occurrences k xs)) <$> keys) k 0%nat
             = if decide (k ∈ keys) then occurrences k xs else 0%nat).
  { induction keys as [|y keys IH]; cbn.
    - now rewrite decide_False by apply not_elem_of_nil.
    - destruct (decide (y = k)) as [->|Hne].
      + now rewrite decide_True by (apply elem_of_cons; now left).
      + rewrite IH. destruct (decide (k ∈ keys)) as [Hin|Hnin].
        * now rewrite decide_True by (apply elem_of_cons; now right).
        * rewrite decide_False; [reflexivity|].
          rewrite elem_of_cons. intros [?|?]; congruence. }
  rewrite H. destruct (decide (k ∈ first_seen xs)) as [_|Hk];
    [reflexivity|].
  rewrite elem_of_first_seen in Hk. now rewrite occurrences_absent.
Qed.

Lemma occurrences_cons k x xs :
  occurrences k (x :: xs)
  = ((if decide (x = k) then 1 else 0) + occurrences k xs)%nat.
Proof.
  unfold occurrences. rewrite filter_cons.
  now destruct (decide (x = k)).
Qed.

Lemma occurrences_present k xs : k ∈ xs -> (1 <= occurrences k xs)%nat.
Proof.
  induction xs as [|x xs IH]; intros Hk; [inversion Hk|].
  rewrite occurrences_cons.
  apply elem_of_cons in Hk as [->|Hk].
  - rewrite decide_True by reflexivity. lia.
  - specialize (IH Hk). lia.
Qed.

Lemma sum_map_cons {B} (f : B -> nat) k ks :
  sum_list (map f (k :: ks)) = (f k + sum_list (map f ks))%nat.
Proof. reflexivity. Qed.

Lemma indicator_absent x (ks : list string) :
  x ∉ ks ->
  sum_list (map (fun k => if decide (x = k) then 1%nat else 0%nat) ks)
  = 0%nat.
Proof.
  induction ks as [|k ks IH]; intros Hx; [reflexivity|].
  apply not_elem_of_cons in Hx as [Hne Hx].
  rewrite sum_map_cons, decide_False by exact Hne. now rewrite IH.
Qed.

Lemma indicator_sum x (ks : list string) :
  NoDup ks -> x ∈ ks ->
  sum_list (map (fun k => if decide (x = k) then 1%nat else 0%nat) ks)
  = 1%nat.
Proof.
  induction ks as [|k ks IH]; intros Hnd Hx; [inversion Hx|].
  apply NoDup_cons in Hnd as [Hk Hnd]. rewrite sum_map_cons.
  destruct (decide (x = k)) as [->|Hne].
  - now rewrite indicator_absent.
  - apply elem_of_cons in Hx as [?|Hx]; [congruence|]. now rewrite IH.
Qed.

(** Counting under keys that cover the list counts every element once. *)
Lemma occurrences_total (ks xs : list string) :
  NoDup ks -> (forall x, x ∈ xs -> x ∈ ks) ->
  sum_list (map (fun k => occurrences k xs) ks) = length xs.
Proof.
  intros Hnd. induction xs as [|x xs IH]; intros Hcov.
  - clear. induction ks as [|k ks IH]; [reflexivity|].
    rewrite sum_map_cons, IH. reflexivity.
  - assert (Hsplit : forall l,
               sum_list (map (fun k => occurrences k (x :: xs)) l)
               = (sum_list (map (fun k => if decide (x = k) then 1%nat
                                          else 0%nat) l)
                  + sum_list (map (fun k => occurrences k xs) l))%nat).
    { induction l as [|k l IHl]; [reflexivity|].
      rewrite !sum_map_cons, IHl, occurrences_cons. lia. }
    rewrite Hsplit, indicator_sum, IH; [reflexivity| |exact Hnd|].
    + intros y Hy. apply Hcov, elem_of_cons. now right.
    + apply Hcov, elem_of_cons. now left.
Qed.

Lemma stored_enriched (l : list ModuleData) :
  stored_skill_list (stored <$> map enrich l) = flat_map skills_of_module l.
Proof.
  induction l as [|m l IH]; [reflexivity|].
  cbn [map fmap list_fmap]. unfold stored_skill_list in *. cbn [flat_map].
  now rewrite IH.
Qed.

End Counts.

(** X20. The category counts of the analyzer list each category once, in
    first-seen order, with the number of skills of that category, which is
    at least one; a skill without category counts under Unknown and a module
    without skill list counts nothing; the counts add up to the number of
    stored skills. *)
Theorem category_counts_are_complete (stored_modules : list StoredModule) :
  _count_skills_by_category stored_modules
  = (fun k =>
       (k, occurrences k
             ((fun s => default "Unknown" (category s))
                <$> stored_skill_list stored_modules)))
      <$> first_seen ((fun s => default "Unknown" (category s))
                        <$> stored_skill_list stored_modules)
  /\ Forall (fun kn => (1 <= snd kn)%nat)
            (_count_skills_by_category stored_modules)
  /\ sum_list (snd <$> _count_skills_by_category stored_modules)
     = length (stored_skill_list stored_modules).
Proof.
  unfold _count_skills_by_category. cbv zeta.
  rewrite (collect_loop (fun s => default "Unknown" (category s))).
  rewrite app_nil_l. split; [apply Counter_spec|]. split.
  - rewrite Counter_spec. apply Forall_fmap, Forall_forall.
    intros k Hk. cbn [snd compose]. rewrite elem_of_first_seen in Hk.
    now apply occurrences_present.
  - now rewrite Counter_total, length_fmap.
Qed.

(** X21. On the modules [main] puts in its result, the Bloom counts of the
    analyzer have no key but the six level names, so the six counts the text
    report prints add up to the total number of skills. *)
Theorem bloom_report_accounts_for_every_skill
  (loaded_modules : list ModuleData) :
  exists result,
    main loaded_modules = Some result
    /\ Forall (fun kn => fst kn ∈ bloom_names)
              (_count_skills_by_blooms (stored <$> res_modules result))
    /\ sum_list
         (blooms_report_counts
            (_count_skills_by_blooms (stored <$> res_modules result)))
       = res_total_skills result.
Proof.
  eexists. split; [apply main_spec|].
  cbn [res_modules res_total_skills].
  unfold _count_skills_by_blooms. cbv zeta.
  rewrite (collect_loop (fun s => default "Unknown" (blooms_level s))).
  rewrite app_nil_l, stored_enriched.
  set (sk := flat_map skills_of_module
               (List.filter has_outcomes loaded_modules)).
  assert (Hnamed : forall b,
             b ∈ (fun s => default "Unknown" (blooms_level s)) <$> sk ->
             b ∈ bloom_names).
  { intros b Hb. apply list_elem_of_fmap in Hb as (s & -> & Hs).
    apply analysis_skills_well_formed in Hs as (m & _ & _ & _ & H & _).
    exact H. }
  split.
  - rewrite Counter_spec. apply Forall_fmap, Forall_forall.
    intros k Hk. cbn. apply Hnamed. now rewrite elem_of_first_seen in Hk.
  - unfold blooms_report_counts. cbv zeta.
    erewrite map_ext; [|intros level; apply get_Counter].
    rewrite (occurrences_total bloom_names); [now rewrite length_fmap| |].
    + apply (bool_decide_unpack _). vm_compute. exact I.
    + exact Hnamed.
Qed.

(** ** The scraper's collection loop *)

Section Scrape.

Context {M : Type}.

Lemma found_cons_Some (m : M) answers :
  found (Some m :: answers) = m :: found answers.
Proof. reflexivity. Qed.

Lemma found_cons_None (answers : list (option M)) :
  found (None :: answers) = found answers.
Proof. reflexivity. Qed.

Lemma scrape_loop_unlimited (answers : list (option M)) modules :
  scrape_loop 0 answers modules = modules ++ found answers.
Proof.
  revert modules. induction answers as [|[m|] answers IH]; intros modules.
  - cbn. now rewrite app_nil_r.
  - cbn [scrape_loop]. cbn [Z.eqb negb andb].
    rewrite IH, found_cons_Some. now rewrite <- app_assoc.
  - cbn [scrape_loop]. now rewrite IH, found_cons_None.
Qed.

Lemma scrape_loop_limited max_modules (answers : list (option M)) modules :
  max_modules <> 0 ->
  (length modules < Z.to_nat (Z.max 1 max_modules))%nat ->
  scrape_loop max_modules answers modules
  = modules
      ++ take (Z.to_nat (Z.max 1 max_modules) - length modules)
              (found answers).
Proof.
  intros Hmax. revert modules.
  induction answers as [|[m|] answers IH]; intros modules Hlen.
  - cbn. now rewrite take_nil, app_nil_r.
  - cbn [scrape_loop]. rewrite found_cons_Some.
    destruct (Z.eqb_spec max_modules 0) as [?|_]; [contradiction|].
    cbn [negb andb].
    destruct (Z.of_nat (length (modules ++ [m])) >=? max_modules) eqn:Hge.
    + rewrite length_app in Hge. cbn [length] in Hge.
      apply Z.geb_le in Hge.
      replace (Z.to_nat (Z.max 1 max_modules) - length modules)%nat
        with 1%nat by lia.
      reflexivity.
    + rewrite Z.geb_leb in Hge. apply Z.leb_gt in Hge.
      rewrite length_app in Hge. cbn [length] in Hge.
      rewrite IH by (rewrite length_app; cbn [length]; lia).
      rewrite length_app. cbn [length].
      replace (Z.to_nat (Z.max 1 max_modules) - length modules)%nat
        with (S (Z.to_nat (Z.max 1 max_modules) - (length modules + 1)))
        by lia.
      cbn [take]. now rewrite <- app_assoc.
  - cbn [scrape_loop]. rewrite found_cons_None. now apply IH.
Qed.

End Scrape.

(** X22. The scraper collects the modules that are found, in the order of
    the codes: all of them when [max_modules] is 0, and otherwise the first
    [max_modules] of them, or the first one alone when [max_modules] is
    negative. *)
Theorem scraper_stops_at_the_limit
  {M : Type} (max_modules : Z) (answers : list (option M)) :
  scrape_all_comp_modules max_modules answers
  = if decide (max_modules = 0) then found answers
    else take (Z.to_nat (Z.max 1 max_modules)) (found answers).
Proof.
  unfold scrape_all_comp_modules.
  destruct (decide (max_modules = 0)) as [->|Hne].
  - now rewrite scrape_loop_unlimited.
  - rewrite scrape_loop_limited by (cbn [length]; lia).
    cbn [length app]. now rewrite Nat.sub_0_r.
Qed.

(** ** The stored document *)

Section StoredDocument.








(** *** Dicts in insertion order *)







(** *** What can be stored *)



















(** *** The round trip of a value *)





(** *** The enriched modules are the kept dicts *)

Lemma kept_modules loaded ms :
  mapM module_of_py loaded = Some ms ->
  module_of_py <$> kept loaded = Some <$> List.filter has_outcomes ms.
Proof.
  rewrite mapM_Some. induction 1 as [|m md loaded ms Hm _ IH].
  - reflexivity.
  - unfold kept in *. rewrite filter_cons. rewrite Hm. cbn [from_option].
    cbn [List.filter]. destruct (has_outcomes md) eqn:Ho.
    + rewrite decide_True by reflexivity. cbn [fmap list_fmap].
      now rewrite Hm, IH.
    + rewrite decide_False by discriminate. exact IH.
Qed.

(** The enriched modules of the result are the kept dicts, one for one. *)
Lemma main_py_modules loaded ms r :
  mapM module_of_py loaded = Some ms ->
  main ms = Some r ->
  module_of_py <$> kept loaded = Some <$> (base <$> res_modules r).
Proof.
  intros Hms Hr. rewrite main_spec in Hr. inversion Hr; subst r.
  cbn [res_modules]. rewrite (kept_modules _ _ Hms). f_equal.
  induction (List.filter has_outcomes ms) as [|m l IH]; [reflexivity|].
  cbn [map fmap list_fmap enrich base]. now rewrite IH at 1.
Qed.

(** What the choices of the code are for: a set is not serializable, and a
    tuple would come back as a list. *)
Lemma dump_set l : dump (PySet l) = None.
Proof. reflexivity. Qed.

Lemma dump_tuple l :
  dump (PyTuple l) = dump (PyList l) /\ ~ clean (PyTuple l).
Proof. split; [reflexivity|]. intros [Hn _]. discriminate Hn. Qed.






End StoredDocument.
